(** * drawer/main.py: the plot renderer of the anomaly detector

    A shallow embedding of [src/drawer/main.py].  The script is one
    function, [main]: it parses the command line, loads a CSV into a
    pandas data frame, selects the rows flagged as anomalies, draws three
    stacked panels with matplotlib, saves the figure and optionally shows
    it.

    pandas and matplotlib are libraries, not code of the script.  What the
    script asks of them is modelled as follows.
    - A data frame is a row index and an ordered list of named columns of
      cells; comparison with a scalar, division by a scalar and boolean
      indexing act cell by cell, with Python's semantics on each cell.
    - The CSV parser and the string-to-timestamp conversion are the two
      fields of a record [Pandas], a parameter of the whole development.
    - pyplot is a mutable store: the current figure, mutated through the
      handles the script holds, and a log of what was saved and shown. *)

From Stdlib Require Import ZArith List Ascii String Bool Lia Uint63.
From Stdlib Require Import Floats.PrimFloat.
From Stdlib Require Floats.SpecFloat Floats.FloatOps Floats.FloatAxioms.
Import ListNotations.

Set Warnings "-inexact-float".
Set Implicit Arguments.

Local Open Scope string_scope.
Local Open Scope Z_scope.

(** ** Cells, series and data frames *)

(** pandas stores timestamps as nanoseconds since the epoch. *)
Definition Timestamp : Type := Z.

(** A cell of a column read from a CSV: an integer (of an int64 or uint64
    column), a float (a missing field reads as the float NaN), a boolean or
    a string. *)
Inductive cell : Type :=
| CInt (z : Z)
| CFloat (f : float)
| CBool (b : bool)
| CStr (s : string).

(** The exceptions the script can die of; [ParserError] stands for whatever
    [pd.read_csv] raises when it cannot make a table of a content it could
    open. *)
Inductive exn : Type :=
| FileNotFoundError (p : string)
| ParserError
| KeyError (k : string)
| TypeError
| ValueError
| OSError (p : string).

(** The failure classes of the specification. *)
Inductive failure_class : Type :=
| DataLoadError
| SchemaError
| OutputWriteError
| OtherError.

Definition classify (e : exn) : failure_class :=
  match e with
  | FileNotFoundError _ | ParserError => DataLoadError
  | KeyError _ => SchemaError
  | OSError _ => OutputWriteError
  | TypeError | ValueError => OtherError
  end.

(** Integer to float64, as numpy converts an integer operand: the nearest
    float64, ties to even; exact up to 2^53 in magnitude. *)
Definition float_of_Z (z : Z) : float :=
  FloatOps.SF2Prim
    (SpecFloat.binary_normalize FloatOps.prec FloatOps.emax z 0 false).

(** [c == n] on one cell.  A string never equals a number; [True == 1]. *)
Definition cell_eq (c : cell) (n : Z) : bool :=
  match c with
  | CInt z => Z.eqb z n
  | CFloat f => PrimFloat.eqb f (float_of_Z n)
  | CBool b => Z.eqb (Z.b2z b) n
  | CStr _ => false
  end.

(** [c / d] on one cell: true division, always a float; a string raises. *)
Definition cell_truediv (c : cell) (d : Z) : exn + cell :=
  match c with
  | CInt z => inr (CFloat (PrimFloat.div (float_of_Z z) (float_of_Z d)))
  | CFloat f => inr (CFloat (PrimFloat.div f (float_of_Z d)))
  | CBool b => inr (CFloat (PrimFloat.div (float_of_Z (Z.b2z b)) (float_of_Z d)))
  | CStr _ => inl TypeError
  end.

(** Python's truth value of a float: [x != 0.0] (so NaN is true). *)
Definition float_truthy (f : float) : bool := negb (PrimFloat.eqb f 0%float).

(** [if x:] on an optional float: [None] is false. *)
Definition truthy (x : option float) : bool :=
  match x with
  | Some f => float_truthy f
  | None => false
  end.

Record Series (A : Type) : Type := mkSeries {
  s_index : list Z;
  s_values : list A
}.

Record DataFrame : Type := mkFrame {
  index : list Z;
  columns : list (string * list cell)
}.

Fixpoint lookup_column (k : string) (cols : list (string * list cell))
  : option (list cell) :=
  match cols with
  | [] => None
  | (n, c) :: rest => if String.eqb n k then Some c else lookup_column k rest
  end.

(** [df[k]]: the column, carrying the frame's index; [KeyError] if absent. *)
Definition getitem (df : DataFrame) (k : string) : exn + Series cell :=
  match lookup_column k (columns df) with
  | Some c => inr (mkSeries (index df) c)
  | None => inl (KeyError k)
  end.

(** [s == n]: a boolean series over the same index. *)
Definition series_eq (s : Series cell) (n : Z) : Series bool :=
  mkSeries (s_index s) (map (fun c => cell_eq c n) (s_values s)).

(** Keep the positions where the mask is true. *)
Fixpoint select (A : Type) (mask : list bool) (l : list A) : list A :=
  match mask, l with
  | b :: mask', x :: l' =>
      if b then x :: select mask' l' else select mask' l'
  | _, _ => []
  end.

(** [df[mask]]: boolean indexing; every column and the index are cut by the
    same mask, so the kept rows keep their labels. *)
Definition getitem_mask (df : DataFrame) (mask : Series bool) : DataFrame :=
  mkFrame (select (s_values mask) (index df))
          (map (fun nc => (fst nc, select (s_values mask) (snd nc)))
               (columns df)).

Fixpoint mapM (A B : Type) (f : A -> exn + B) (l : list A) : exn + list B :=
  match l with
  | [] => inr []
  | x :: l' =>
      match f x with
      | inl e => inl e
      | inr y =>
          match mapM f l' with
          | inl e => inl e
          | inr ys => inr (y :: ys)
          end
      end
  end.

(** [s / d]: cell by cell, the first offending cell raises. *)
Definition series_truediv (s : Series cell) (d : Z) : exn + Series cell :=
  match mapM (fun c => cell_truediv c d) (s_values s) with
  | inl e => inl e
  | inr ys => inr (mkSeries (s_index s) ys)
  end.

(** What [pd.read_csv] is handed: the text stream [sys.stdin], or the path
    of a file. *)
Inductive Source : Type :=
| Stdin
| File (p : string).

(** What the script uses of pandas and does not define.  [parse_csv] is what
    [pd.read_csv] makes of a content: for a stream, of the text the stream
    delivers; for a path, of the bytes of the file, which pandas opens
    itself (compression inferred from the extension of the path, its own
    decoding), so the table can depend on the path.  [convert_datetime] is
    the conversion behind [pd.to_datetime], of a whole column at a time. *)
Record Pandas : Type := mkPandas {
  parse_csv : Source -> string -> option DataFrame;
  convert_datetime : list cell -> option (list Timestamp)
}.

(** ** The command line *)

Record Namespace : Type := mkNamespace {
  path : string;
  name : string;
  threshold : option float;
  output : string;
  show : bool
}.

(** An option of the command line once argparse has recognised it and
    converted its value ([type=float] for the threshold). *)
Inductive cli_option : Type :=
| OptName (s : string)
| OptThreshold (f : float)
| OptOutput (s : string)
| OptShow.

(** The defaults of the [add_argument] calls; [path] is positional. *)
Definition defaults (p : string) : Namespace :=
  mkNamespace p "value" None "output.png" false.

Definition set_option (a : Namespace) (o : cli_option) : Namespace :=
  match o with
  | OptName s => mkNamespace (path a) s (threshold a) (output a) (show a)
  | OptThreshold f => mkNamespace (path a) (name a) (Some f) (output a) (show a)
  | OptOutput s => mkNamespace (path a) (name a) (threshold a) s (show a)
  | OptShow => mkNamespace (path a) (name a) (threshold a) (output a) true
  end.

(** ** Figures *)

(** The keyword arguments [ax.plot] is given; [None] is matplotlib's
    default. *)
Record Style : Type := mkStyle {
  marker : option string;
  linestyle : option string;
  color : option string
}.

Record Line2D : Type := mkLine {
  xdata : list Timestamp;
  ydata : list cell;
  style : Style
}.

Record HLine : Type := mkHLine {
  h_y : float;
  h_color : string;
  h_linestyle : string
}.

(** [HourLocator(byhour, interval)]. *)
Record Locator : Type := HourLocator {
  byhour : option (list Z);
  interval : Z
}.

(** matplotlib: [if byhour is None: byhour = range(24)]. *)
Definition locator_hours (l : Locator) : list Z :=
  match byhour l with
  | Some hs => hs
  | None => map Z.of_nat (seq 0 24)
  end.

Record Axes : Type := mkAxes {
  geometry : nat * nat * nat;
  title : string;
  lines : list Line2D;
  hlines : list HLine;
  major_locator : option Locator;
  minor_locator : option Locator;
  major_formatter : option string
}.

Record Figure : Type := mkFigure {
  figsize : float * float;
  axes : list Axes;
  autofmt : bool
}.

(** ** The process: its environment and its state *)

(** What the process is started with and only reads: the command line
    (the positional [path] and the recognised options), the text standard
    input delivers, the content of the files that can be read, the paths
    that can be written. *)
Record Env : Type := mkEnv {
  argv : string * list cli_option;
  stdin : string;
  fs : string -> option string;
  writable : string -> bool
}.

Inductive Event : Type :=
| EvToDatetime (vals : list cell)
| EvSavefig (p : string) (fig : Figure)
| EvShow (fig : Figure).

(** What the run mutates: pyplot's current figure, and the log of the
    conversions asked of pandas, the files written and the figures shown. *)
Record World : Type := mkWorld {
  gcf : option Figure;
  trace : list Event
}.

Definition set_gcf (w : World) (g : option Figure) : World :=
  mkWorld g (trace w).

Definition log (w : World) (e : Event) : World :=
  mkWorld (gcf w) (trace w ++ [e]).

(** A fresh process: no figure yet, nothing logged. *)
Definition start : World := mkWorld None [].

(** State and exceptions: what was done before a raise stays done. *)
Definition M (A : Type) : Type := World -> World * (exn + A).

Definition ret (A : Type) (x : A) : M A := fun w => (w, inr x).

Definition raise (A : Type) (e : exn) : M A := fun w => (w, inl e).

Arguments raise {A} e.

Definition bind (A B : Type) (m : M A) (k : A -> M B) : M B :=
  fun w =>
    match m w with
    | (w', inl e) => (w', inl e)
    | (w', inr x) => k x w'
    end.

Definition lift (A : Type) (r : exn + A) : M A := fun w => (w, r).

Notation "x <- m ;; k" := (bind m (fun x => k))
  (at level 61, m at next level, right associativity).
Notation "m ;;; k" := (bind m (fun _ => k))
  (at level 61, right associativity).

Fixpoint forM_ (A : Type) (l : list A) (body : A -> M unit) : M unit :=
  match l with
  | [] => ret tt
  | x :: l' => body x ;;; forM_ l' body
  end.

Fixpoint update_nth (A : Type) (n : nat) (f : A -> A) (l : list A) : list A :=
  match n, l with
  | O, x :: l' => f x :: l'
  | S n', x :: l' => x :: update_nth n' f l'
  | _, [] => []
  end.

(** The files the run wrote, oldest first. *)
Fixpoint saved (tr : list Event) : list (string * Figure) :=
  match tr with
  | [] => []
  | EvSavefig p f :: tr' => (p, f) :: saved tr'
  | _ :: tr' => saved tr'
  end.

Fixpoint shown (tr : list Event) : list Figure :=
  match tr with
  | [] => []
  | EvShow f :: tr' => f :: shown tr'
  | _ :: tr' => shown tr'
  end.

Fixpoint datetime_calls (tr : list Event) : list (list cell) :=
  match tr with
  | [] => []
  | EvToDatetime v :: tr' => v :: datetime_calls tr'
  | _ :: tr' => datetime_calls tr'
  end.


(** ** The script *)

(** [parser.parse_args()] on a command line argparse accepts: the defaults,
    then each option in turn (a later occurrence of an option overrides an
    earlier one).  On [-h], and on a command line it refuses, argparse
    leaves the process itself, before any statement of [main] on the data;
    those exits are not part of this model. *)
Definition parse_args (av : string * list cli_option) : Namespace :=
  fold_left set_option (snd av) (defaults (fst av)).

Section Drawer.

Variable pd : Pandas.
Variable env : Env.

(** [pd.read_csv(src)]: the content comes from standard input or from the
    named file, and pandas makes a table of it, or fails to. *)
Definition read_csv (src : Source) : M DataFrame :=
  match src with
  | Stdin =>
      match parse_csv pd Stdin (stdin env) with
      | Some df => ret df
      | None => raise ParserError
      end
  | File p =>
      match fs env p with
      | None => raise (FileNotFoundError p)
      | Some content =>
          match parse_csv pd (File p) content with
          | Some df => ret df
          | None => raise ParserError
          end
      end
  end.

(** [pd.to_datetime(s)]: a series of timestamps over the same index. *)
Definition to_datetime (s : Series cell) : M (Series Timestamp) :=
  fun w =>
    let w' := log w (EvToDatetime (s_values s)) in
    match convert_datetime pd (s_values s) with
    | Some ts => (w', inr (mkSeries (s_index s) ts))
    | None => (w', inl ValueError)
    end.

(** [plt.figure(figsize=...)]: a new, empty figure becomes the current one. *)
Definition plt_figure (size : float * float) : M unit :=
  fun w => (set_gcf w (Some (mkFigure size [] false)), inr tt).

(** The script holds one figure, [fig], which is pyplot's current figure
    from [plt.figure] on; its methods mutate that figure.  (No method runs
    before [plt.figure], where there would be nothing to mutate.) *)
Definition modify_fig (f : Figure -> Figure) : M unit :=
  fun w =>
    match gcf w with
    | Some g => (set_gcf w (Some (f g)), inr tt)
    | None => (w, inr tt)
    end.

Definition modify_axes (ax : nat) (f : Axes -> Axes) : M unit :=
  modify_fig (fun g =>
    mkFigure (figsize g) (update_nth ax f (axes g)) (autofmt g)).

(** [fig.add_subplot(r, c, i)]: the new axes are appended to the figure; the
    handle returned is their position in it. *)
Definition add_subplot (r c i : nat) : M nat :=
  fun w =>
    match gcf w with
    | Some g =>
        (set_gcf w (Some (mkFigure (figsize g)
                            (axes g ++ [mkAxes (r, c, i) "" [] [] None None None])
                            (autofmt g))),
         inr (List.length (axes g)))
    | None => (w, inr O)
    end.

Definition set_title (ax : nat) (s : string) : M unit :=
  modify_axes ax (fun a =>
    mkAxes (geometry a) s (lines a) (hlines a)
           (major_locator a) (minor_locator a) (major_formatter a)).

(** [ax.plot(x, y, **kw)]: one more line; matplotlib refuses [x] and [y] of
    different lengths. *)
Definition plot (ax : nat) (x : Series Timestamp) (y : Series cell)
    (kw : Style) : M unit :=
  if Nat.eqb (List.length (s_values x)) (List.length (s_values y)) then
    modify_axes ax (fun a =>
      mkAxes (geometry a) (title a)
             (lines a ++ [mkLine (s_values x) (s_values y) kw]) (hlines a)
             (major_locator a) (minor_locator a) (major_formatter a))
  else raise ValueError.

Definition axhline (ax : nat) (y : float) (c ls : string) : M unit :=
  modify_axes ax (fun a =>
    mkAxes (geometry a) (title a) (lines a) (hlines a ++ [mkHLine y c ls])
           (major_locator a) (minor_locator a) (major_formatter a)).

Definition set_major_locator (ax : nat) (l : Locator) : M unit :=
  modify_axes ax (fun a =>
    mkAxes (geometry a) (title a) (lines a) (hlines a)
           (Some l) (minor_locator a) (major_formatter a)).

Definition set_minor_locator (ax : nat) (l : Locator) : M unit :=
  modify_axes ax (fun a =>
    mkAxes (geometry a) (title a) (lines a) (hlines a)
           (major_locator a) (Some l) (major_formatter a)).

Definition set_major_formatter (ax : nat) (fmt : string) : M unit :=
  modify_axes ax (fun a =>
    mkAxes (geometry a) (title a) (lines a) (hlines a)
           (major_locator a) (minor_locator a) (Some fmt)).

Definition autofmt_xdate : M unit :=
  modify_fig (fun g => mkFigure (figsize g) (axes g) true).

(** pyplot's [gcf()] makes a default figure when there is none. *)
Definition current_figure (w : World) : Figure :=
  match gcf w with
  | Some g => g
  | None => mkFigure (6.4%float, 4.8%float) [] false
  end.

(** [plt.savefig(p)]: the current figure is written to [p], or the write
    fails. *)
Definition savefig (p : string) : M unit :=
  fun w =>
    if writable env p
    then (log w (EvSavefig p (current_figure w)), inr tt)
    else (w, inl (OSError p)).

(** [plt.show()], with a display that works; a failure of the display is
    not part of this model. *)
Definition plt_show : M unit :=
  fun w => (log w (EvShow (current_figure w)), inr tt).

Definition default_style : Style := mkStyle None None None.

(** [marker="o", linestyle="None", color="red"]. *)
Definition red_markers : Style := mkStyle (Some "o") (Some "None") (Some "red").

(** [main], statement by statement. *)
Definition main : M unit :=
  let args := parse_args (argv env) in
  let src := if String.eqb (path args) "-" then Stdin else File (path args) in
  let threshold := threshold args in
  data <- read_csv src ;;
  flags <- lift (getitem data "output") ;;
  let anomaly_points := getitem_mask data (series_eq flags 1) in
  a_time <- lift (getitem anomaly_points "Time") ;;
  t_anomalies <- to_datetime a_time ;;
  plt_figure (12.8%float, 9.6%float) ;;;
  d_time <- lift (getitem data "Time") ;;
  t <- to_datetime d_time ;;
  let axs : list nat := [] in
  (* panel 1 *)
  ax <- add_subplot 3 1 1 ;;
  set_title ax (name args) ;;;
  v <- lift (getitem data "value") ;;
  v1000 <- lift (series_truediv v 1000) ;;
  plot ax t v1000 default_style ;;;
  av <- lift (getitem anomaly_points "value") ;;
  av1000 <- lift (series_truediv av 1000) ;;
  plot ax t_anomalies av1000 red_markers ;;;
  let axs := (axs ++ [ax])%list in
  (* panel 2 *)
  ax <- add_subplot 3 1 2 ;;
  set_title ax "Saliency Map" ;;;
  s <- lift (getitem data "saliency") ;;
  plot ax t s default_style ;;;
  as_ <- lift (getitem anomaly_points "saliency") ;;
  plot ax t_anomalies as_ red_markers ;;;
  let axs := (axs ++ [ax])%list in
  (* panel 3 *)
  ax <- add_subplot 3 1 3 ;;
  set_title ax "Score" ;;;
  sc <- lift (getitem data "score") ;;
  plot ax t sc default_style ;;;
  asc <- lift (getitem anomaly_points "score") ;;
  plot ax t_anomalies asc red_markers ;;;
  (if truthy threshold
   then match threshold with
        | Some y => axhline ax y "red" "--"
        | None => ret tt
        end
   else ret tt) ;;;
  let axs := (axs ++ [ax])%list in
  forM_ axs (fun ax =>
    set_major_locator ax (HourLocator (Some [0; 6; 12; 18]) 1) ;;;
    set_minor_locator ax (HourLocator None 1) ;;;
    set_major_formatter ax "%Y-%m-%d %H:%M") ;;;
  autofmt_xdate ;;;
  savefig (output args) ;;;
  (if show args then plt_show else ret tt).

End Drawer.

(** ** Vocabulary of the properties *)

(** The source the script reads, from the parsed command line. *)
Definition source_of (a : Namespace) : Source :=
  if String.eqb (path a) "-" then Stdin else File (path a).

(** The mask [data["output"] == 1] over the cells of the [output] column. *)
Definition anomaly_mask (o : list cell) : list bool :=
  map (fun c => cell_eq c 1) o.

(** The positions a mask keeps, in increasing order. *)
Fixpoint positions (from : nat) (mask : list bool) : list nat :=
  match mask with
  | [] => []
  | b :: mask' =>
      if b then from :: positions (S from) mask' else positions (S from) mask'
  end.

(** A rectangular frame: every column is as long as the index. *)
Definition wf_frame (df : DataFrame) : Prop :=
  Forall (fun nc => List.length (snd nc) = List.length (index df)) (columns df).

(** The row of a frame at a position: its label and its cell in each column. *)
Definition row_at (df : DataFrame) (i : nat)
  : option Z * list (string * option cell) :=
  (nth_error (index df) i,
   map (fun nc => (fst nc, nth_error (snd nc) i)) (columns df)).

Fixpoint traverse (A B : Type) (g : A -> option B) (l : list A)
  : option (list B) :=
  match l with
  | [] => Some []
  | x :: l' =>
      match g x, traverse g l' with
      | Some y, Some ys => Some (y :: ys)
      | _, _ => None
      end
  end.

(** A conversion that treats each cell on its own: the whole column converts
    when every cell does, to the list of the converted cells. *)
Definition elementwise (f : list cell -> option (list Timestamp)) : Prop :=
  exists g : cell -> option Timestamp, forall l, f l = traverse g l.

Definition is_number (c : cell) : bool :=
  match c with
  | CStr _ => false
  | _ => true
  end.

(** A valid table: rectangular, with the five columns, a [Time] column that
    converts to one timestamp per row and a numeric [value] column. *)
Definition valid_table (pd : Pandas) (df : DataFrame) : Prop :=
  wf_frame df /\
  exists o tm v s sc t,
    lookup_column "output" (columns df) = Some o /\
    lookup_column "Time" (columns df) = Some tm /\
    lookup_column "value" (columns df) = Some v /\
    lookup_column "saliency" (columns df) = Some s /\
    lookup_column "score" (columns df) = Some sc /\
    convert_datetime pd tm = Some t /\
    List.length t = List.length tm /\
    forallb is_number v = true.


Definition major_hours : Locator := HourLocator (Some [0; 6; 12; 18]) 1.
Definition every_hour : Locator := HourLocator None 1.
Definition tick_format : string := "%Y-%m-%d %H:%M".

(** A finished panel: its line, its overlay of anomalies, its horizontal
    lines and the shared formatting of the time axis. *)
Definition panel (i : nat) (ttl : string)
    (t : list Timestamp) (y : list cell)
    (ta : list Timestamp) (ya : list cell) (hl : list HLine) : Axes :=
  mkAxes (3%nat, 1%nat, i) ttl
         [mkLine t y default_style; mkLine ta ya red_markers] hl
         (Some major_hours) (Some every_hour) (Some tick_format).

(** The horizontal lines [main] draws on the score panel. *)
Definition threshold_lines (th : option float) : list HLine :=
  match th with
  | Some y => if float_truthy y then [mkHLine y "red" "--"] else []
  | None => []
  end.

(** [renders pd a data fig evs]: every statement of [main] between the load
    and the save succeeds on [data], leaves the figure [fig] and asks pandas
    for the conversions [evs]. *)
Inductive renders (pd : Pandas) (a : Namespace) (data : DataFrame)
  : Figure -> list Event -> Prop :=
| renders_intro (o tm v s sc : list cell) (t ta : list Timestamp)
    (v' av' : list cell) :
    lookup_column "output" (columns data) = Some o ->
    lookup_column "Time" (columns data) = Some tm ->
    convert_datetime pd (select (anomaly_mask o) tm) = Some ta ->
    convert_datetime pd tm = Some t ->
    lookup_column "value" (columns data) = Some v ->
    mapM (fun c => cell_truediv c 1000) v = inr v' ->
    List.length t = List.length v' ->
    mapM (fun c => cell_truediv c 1000) (select (anomaly_mask o) v) = inr av' ->
    List.length ta = List.length av' ->
    lookup_column "saliency" (columns data) = Some s ->
    List.length t = List.length s ->
    List.length ta = List.length (select (anomaly_mask o) s) ->
    lookup_column "score" (columns data) = Some sc ->
    List.length t = List.length sc ->
    List.length ta = List.length (select (anomaly_mask o) sc) ->
    renders pd a data
      (mkFigure (12.8%float, 9.6%float)
         [panel 1 (name a) t v' ta av' [];
          panel 2 "Saliency Map" t s ta (select (anomaly_mask o) s) [];
          panel 3 "Score" t sc ta (select (anomaly_mask o) sc)
                (threshold_lines (threshold a))]
         true)
      [EvToDatetime (select (anomaly_mask o) tm); EvToDatetime tm].

(** The world a successful run ends in. *)
Definition finished (a : Namespace) (w : World) (fig : Figure)
    (evs : list Event) : World :=
  mkWorld (Some fig)
          (trace w ++ evs ++ EvSavefig (output a) fig ::
             (if show a then [EvShow fig] else [])).

(** The last option of a command line that [pick] recognises, if any. *)
Fixpoint last_some (A : Type) (pick : cli_option -> option A)
    (opts : list cli_option) : option A :=
  match opts with
  | [] => None
  | o :: rest =>
      match last_some pick rest with
      | Some x => Some x
      | None => pick o
      end
  end.

Definition given_name (o : cli_option) : option string :=
  match o with
  | OptName s => Some s
  | _ => None
  end.

Definition given_threshold (o : cli_option) : option float :=
  match o with
  | OptThreshold f => Some f
  | _ => None
  end.

Definition given_output (o : cli_option) : option string :=
  match o with
  | OptOutput s => Some s
  | _ => None
  end.

Definition is_show (o : cli_option) : bool :=
  match o with
  | OptShow => true
  | _ => false
  end.

(** The exceptions of the statements of [main] from the load to the save:
    the loader's two, the key error on one of the five columns, the type
    error of the division, the value error of a conversion or of a plot, the
    OS error of the save. *)
Definition raised_by_main (a : Namespace) (e : exn) : Prop :=
  e = ParserError \/
  (path a <> "-" /\ e = FileNotFoundError (path a)) \/
  (exists k, In k ["output"; "Time"; "value"; "saliency"; "score"] /\
             e = KeyError k) \/
  e = TypeError \/
  e = ValueError \/
  e = OSError (output a).

(** ** A reference instance of pandas and of the environment

    Used to run [main] on concrete inputs: a CSV parser that knows three
    texts, and a conversion to timestamps that treats each cell on its own,
    reading ISO 8601 strings ([YYYY-MM-DDTHH:MM:SS]) and taking integers as
    nanoseconds since the epoch.  As [pd.read_csv] does with its default
    [compression="infer"], the parser opens a path ending in [.gz] through
    gzip, which refuses a content that is no gzip stream. *)

Module Sample.

Definition digit (c : Ascii.ascii) : option Z :=
  let n := Z.of_N (Ascii.N_of_ascii c) - 48 in
  if (0 <=? n) && (n <=? 9) then Some n else None.

Fixpoint digits (n : nat) (s : string) (acc : Z) : option (Z * string) :=
  match n with
  | O => Some (acc, s)
  | S n' =>
      match s with
      | String c s' =>
          match digit c with
          | Some d => digits n' s' (10 * acc + d)
          | None => None
          end
      | EmptyString => None
      end
  end.

Definition expect (ok : Ascii.ascii -> bool) (s : string) : option string :=
  match s with
  | String c s' => if ok c then Some s' else None
  | EmptyString => None
  end.

Definition is_char (a c : Ascii.ascii) : bool := Ascii.eqb a c.

(** Days from 1970-01-01 to the given civil date (proleptic Gregorian). *)
Definition days_from_civil (y m d : Z) : Z :=
  let y' := if m <=? 2 then y - 1 else y in
  let era := y' / 400 in
  let yoe := y' - era * 400 in
  let mp := if m <=? 2 then m + 9 else m - 3 in
  let doy := (153 * mp + 2) / 5 + d - 1 in
  let doe := yoe * 365 + yoe / 4 - yoe / 100 + doy in
  era * 146097 + doe - 719468.

Definition iso_timestamp (s : string) : option Timestamp :=
  match digits 4 s 0 with
  | Some (y, s) =>
  match expect (is_char "-"%char) s with
  | Some s =>
  match digits 2 s 0 with
  | Some (m, s) =>
  match expect (is_char "-"%char) s with
  | Some s =>
  match digits 2 s 0 with
  | Some (d, s) =>
  match expect (fun c => is_char "T"%char c || is_char " "%char c) s with
  | Some s =>
  match digits 2 s 0 with
  | Some (h, s) =>
  match expect (is_char ":"%char) s with
  | Some s =>
  match digits 2 s 0 with
  | Some (mi, s) =>
  match expect (is_char ":"%char) s with
  | Some s =>
  match digits 2 s 0 with
  | Some (sec, EmptyString) =>
      if (1 <=? m) && (m <=? 12) && (1 <=? d) && (d <=? 31) &&
         (h <? 24) && (mi <? 60) && (sec <? 60)
      then Some ((((days_from_civil y m d * 24 + h) * 60 + mi) * 60 + sec)
                 * 1000000000)
      else None
  | _ => None
  end | None => None end | _ => None end | None => None end
  | _ => None end | None => None end | _ => None end | None => None end
  | _ => None end | None => None end | _ => None end.

Definition convert_cell (c : cell) : option Timestamp :=
  match c with
  | CStr s => iso_timestamp s
  | CInt z => Some z
  | _ => None
  end.

(** The scenario of the specification: two rows, the second an anomaly. *)
Definition csv_two_rows : string :=
"Time,value,saliency,score,output
2024-01-01T00:00:00,1000,0.1,0.2,0
2024-01-01T01:00:00,2000,0.9,0.95,1
".

Definition frame_two_rows : DataFrame :=
  mkFrame [0; 1]
    [("Time", [CStr "2024-01-01T00:00:00"; CStr "2024-01-01T01:00:00"]);
     ("value", [CInt 1000; CInt 2000]);
     ("saliency", [CFloat 0.1; CFloat 0.9]);
     ("score", [CFloat 0.2; CFloat 0.95]);
     ("output", [CInt 0; CInt 1])].

(** No anomaly: the flags are 0, 2 and an empty field. *)
Definition csv_no_anomaly : string :=
"Time,value,saliency,score,output
2024-01-01T00:00:00,1000,0.1,0.2,0
2024-01-01T01:00:00,2000,0.9,0.95,2
2024-01-01T02:00:00,1500,0.3,0.4,
".

Definition frame_no_anomaly : DataFrame :=
  mkFrame [0; 1; 2]
    [("Time", [CStr "2024-01-01T00:00:00"; CStr "2024-01-01T01:00:00";
               CStr "2024-01-01T02:00:00"]);
     ("value", [CInt 1000; CInt 2000; CInt 1500]);
     ("saliency", [CFloat 0.1; CFloat 0.9; CFloat 0.3]);
     ("score", [CFloat 0.2; CFloat 0.95; CFloat 0.4]);
     ("output", [CFloat 0; CFloat 2; CFloat nan])].

(** The [score] column is missing. *)
Definition csv_no_score : string :=
"Time,value,saliency,output
2024-01-01T00:00:00,1000,0.1,0
2024-01-01T01:00:00,2000,0.9,1
".

Definition frame_no_score : DataFrame :=
  mkFrame [0; 1]
    [("Time", [CStr "2024-01-01T00:00:00"; CStr "2024-01-01T01:00:00"]);
     ("value", [CInt 1000; CInt 2000]);
     ("saliency", [CFloat 0.1; CFloat 0.9]);
     ("output", [CInt 0; CInt 1])].

Definition parse_text (text : string) : option DataFrame :=
  if String.eqb text csv_two_rows then Some frame_two_rows
  else if String.eqb text csv_no_anomaly then Some frame_no_anomaly
  else if String.eqb text csv_no_score then Some frame_no_score
  else None.

Definition gzip_path (p : string) : bool :=
  String.eqb (String.substring (String.length p - 3) 3 p) ".gz".

(** None of the three texts is a gzip stream. *)
Definition parse (src : Source) (content : string) : option DataFrame :=
  match src with
  | Stdin => parse_text content
  | File p => if gzip_path p then None else parse_text content
  end.

Definition pandas : Pandas := mkPandas parse (traverse convert_cell).

(** One file system for every run: the three texts under three names, and
    the first once more, as it is, under a name ending in [.gz]. *)
Definition files (p : string) : option string :=
  if String.eqb p "two.csv" then Some csv_two_rows
  else if String.eqb p "two.csv.gz" then Some csv_two_rows
  else if String.eqb p "quiet.csv" then Some csv_no_anomaly
  else if String.eqb p "noscore.csv" then Some csv_no_score
  else None.

(** Every path can be written, except under [/proc]. *)
Definition can_write (p : string) : bool :=
  negb (String.prefix "/proc/" p).

(** A run on a named file, with nothing on standard input. *)
Definition env_file (p : string) (opts : list cli_option) : Env :=
  mkEnv (p, opts) "" files can_write.

(** A run on standard input. *)
Definition env_stdin (text : string) (opts : list cli_option) : Env :=
  mkEnv ("-", opts) text files can_write.

(** A pandas whose parser answers one table, whatever the text. *)
Definition constant_pandas (df : DataFrame) : Pandas :=
  mkPandas (fun _ _ => Some df) (traverse convert_cell).

(** No [output] column. *)
Definition frame_no_flag : DataFrame :=
  mkFrame [0; 1]
    [("Time", [CStr "2024-01-01T00:00:00"; CStr "2024-01-01T01:00:00"]);
     ("value", [CInt 1000; CInt 2000]);
     ("saliency", [CFloat 0.1; CFloat 0.9]);
     ("score", [CFloat 0.2; CFloat 0.95])].

(** The time of the one anomaly does not read as a timestamp. *)
Definition frame_bad_time : DataFrame :=
  mkFrame [0; 1]
    [("Time", [CStr "yesterday"; CStr "2024-01-01T01:00:00"]);
     ("value", [CInt 1000; CInt 2000]);
     ("saliency", [CFloat 0.1; CFloat 0.9]);
     ("score", [CFloat 0.2; CFloat 0.95]);
     ("output", [CInt 1; CInt 0])].

(** A text in the [value] column. *)
Definition frame_text_value : DataFrame :=
  mkFrame [0; 1]
    [("Time", [CStr "2024-01-01T00:00:00"; CStr "2024-01-01T01:00:00"]);
     ("value", [CInt 1000; CStr "n/a"]);
     ("saliency", [CFloat 0.1; CFloat 0.9]);
     ("score", [CFloat 0.2; CFloat 0.95]);
     ("output", [CInt 0; CInt 1])].








End Sample.

(** * Properties *)

Local Open Scope list_scope.

(** ** Lists: masks, positions and traversals *)

Section Selections.

Variables A B : Type.

Lemma select_nil_r (m : list bool) : select m (@nil A) = [].
Proof. destruct m; reflexivity. Qed.

Lemma select_length_eq (m : list bool) (l : list A) (l' : list B) :
  List.length l = List.length l' ->
  List.length (select m l) = List.length (select m l').
Proof.
  revert l l'. induction m as [| b m IH]; intros [| x l] [| y l'] H;
    cbn [select List.length] in *; try reflexivity; try discriminate.
  injection H as H. destruct b; cbn [List.length]; rewrite (IH l l' H);
    reflexivity.
Qed.

Lemma select_map (f : A -> B) (m : list bool) (l : list A) :
  select m (map f l) = map f (select m l).
Proof.
  revert l. induction m as [| b m IH]; intros [| x l]; cbn [select map];
    try reflexivity.
  destruct b; cbn [map]; rewrite IH; reflexivity.
Qed.

Lemma select_all_false (m : list bool) (l : list A) :
  Forall (fun b => b = false) m -> select m l = [].
Proof.
  intros H. revert l. induction H as [| b m -> _ IH]; intros [| x l];
    cbn [select]; try reflexivity.
  apply IH.
Qed.

Lemma select_In (m : list bool) (l : list A) (x : A) :
  In x (select m l) -> In x l.
Proof.
  revert l. induction m as [| b m IH]; intros [| y l]; cbn [select];
    try contradiction.
  destruct b; cbn [In]; intros H.
  - destruct H as [-> | H]; [left; reflexivity | right; apply IH; exact H].
  - right. apply IH. exact H.
Qed.

Lemma positions_ge (m : list bool) (from i : nat) :
  In i (positions from m) -> (from <= i)%nat.
Proof.
  revert from. induction m as [| b m IH]; intros from; cbn [positions].
  - contradiction.
  - destruct b; cbn [In]; intros H.
    + destruct H as [<- | H]; [lia | apply IH in H; lia].
    + apply IH in H. lia.
Qed.

Lemma positions_spec (m : list bool) (from i : nat) :
  In i (positions from m) <->
  (from <= i)%nat /\ nth_error m (i - from) = Some true.
Proof.
  revert from. induction m as [| b m IH]; intros from; cbn [positions].
  - split; [contradiction |]. intros [_ H].
    destruct (i - from)%nat; discriminate.
  - assert (Hrest : In i (positions (S from) m) <->
              (from < i)%nat /\ nth_error (b :: m) (i - from) = Some true).
    { rewrite IH. split; intros [Hle H]; (split; [lia |]).
      - replace (i - from)%nat with (S (i - S from)) by lia. exact H.
      - replace (i - from)%nat with (S (i - S from)) in H by lia. exact H. }
    destruct b; cbn [In].
    + rewrite Hrest. split.
      * intros [<- | [Hlt H]]; [| split; [lia | exact H]].
        split; [lia |]. rewrite Nat.sub_diag. reflexivity.
      * intros [Hle H]. destruct (Nat.eq_dec from i) as [-> | Hne];
          [left; reflexivity | right; split; [lia | exact H]].
    + rewrite Hrest. split.
      * intros [Hlt H]. split; [lia | exact H].
      * intros [Hle H]. split; [| exact H].
        destruct (Nat.eq_dec from i) as [-> | Hne]; [| lia].
        rewrite Nat.sub_diag in H. discriminate.
Qed.

Lemma positions_length (m : list bool) (from : nat) :
  List.length (positions from m) = List.length (filter (fun b => b) m).
Proof.
  revert from. induction m as [| b m IH]; intros from;
    cbn [positions filter]; [reflexivity |].
  destruct b; cbn [List.length]; rewrite IH; reflexivity.
Qed.

(** The [j]-th kept element is the element at the [j]-th kept position. *)
Lemma select_nth (m : list bool) (l : list A) (from j : nat) :
  List.length l = List.length m ->
  nth_error (select m l) j =
  match nth_error (positions from m) j with
  | Some i => nth_error l (i - from)
  | None => None
  end.
Proof.
  revert l from j. induction m as [| b m IH]; intros [| x l] from j H;
    cbn [select positions] in *; try discriminate.
  - destruct j; reflexivity.
  - injection H as H.
    assert (Hshift : forall j',
      nth_error (select m l) j' =
      match nth_error (positions (S from) m) j' with
      | Some i => nth_error (x :: l) (i - from)
      | None => None
      end).
    { intros j'. rewrite (IH l (S from) j' H).
      destruct (nth_error (positions (S from) m) j') as [i |] eqn:E;
        [| reflexivity].
      apply nth_error_In, positions_ge in E.
      replace (i - from)%nat with (S (i - S from)) by lia. reflexivity. }
    destruct b.
    + destruct j as [| j]; cbn [nth_error].
      * rewrite Nat.sub_diag. reflexivity.
      * apply Hshift.
    + apply Hshift.
Qed.

Lemma select_length_count (m : list bool) (l : list A) :
  List.length l = List.length m ->
  List.length (select m l) = List.length (filter (fun b => b) m).
Proof.
  revert l. induction m as [| b m IH]; intros [| x l] H;
    cbn [select filter List.length] in *; try discriminate; try reflexivity.
  injection H as H. destruct b; cbn [List.length]; rewrite (IH l H);
    reflexivity.
Qed.

Lemma traverse_length (g : A -> option B) (l : list A) (t : list B) :
  traverse g l = Some t -> List.length t = List.length l.
Proof.
  revert t. induction l as [| x l IH]; intros t; cbn [traverse].
  - intros H. injection H as <-. reflexivity.
  - destruct (g x) as [y |]; [| discriminate].
    destruct (traverse g l) as [ys |]; [| discriminate].
    intros H. injection H as <-. cbn [List.length]. rewrite (IH ys eq_refl).
    reflexivity.
Qed.

(** Converting the kept cells gives the kept conversions. *)
Lemma traverse_select (g : A -> option B) (m : list bool) (l : list A)
    (t : list B) :
  traverse g l = Some t -> traverse g (select m l) = Some (select m t).
Proof.
  revert l t. induction m as [| b m IH]; intros [| x l] t; cbn [traverse].
  - intros H. injection H as <-. reflexivity.
  - intros _. reflexivity.
  - intros H. injection H as <-. reflexivity.
  - destruct (g x) as [y |] eqn:Ex; [| discriminate].
    destruct (traverse g l) as [ys |] eqn:El; [| discriminate].
    intros H. injection H as <-. cbn [select].
    destruct b; cbn [traverse]; rewrite ?Ex, (IH l ys El); reflexivity.
Qed.

Lemma mapM_length (f : A -> exn + B) (l : list A) (ys : list B) :
  mapM f l = inr ys -> List.length ys = List.length l.
Proof.
  revert ys. induction l as [| x l IH]; intros ys; cbn [mapM].
  - intros H. injection H as <-. reflexivity.
  - destruct (f x) as [e | y]; [discriminate |].
    destruct (mapM f l) as [e | ys']; [discriminate |].
    intros H. injection H as <-. cbn [List.length]. rewrite (IH ys' eq_refl).
    reflexivity.
Qed.

Lemma mapM_Forall2 (f : A -> exn + B) (l : list A) (ys : list B) :
  mapM f l = inr ys <-> Forall2 (fun x y => f x = inr y) l ys.
Proof.
  revert ys. induction l as [| x l IH]; intros ys; cbn [mapM].
  - split.
    + intros H. injection H as <-. constructor.
    + intros H. inversion H. reflexivity.
  - split.
    + destruct (f x) as [e | y] eqn:Ex; [discriminate |].
      destruct (mapM f l) as [e | ys'] eqn:El; [discriminate |].
      intros H. injection H as <-. constructor; [exact Ex |].
      apply IH. reflexivity.
    + intros H. inversion H as [| x' y l' ys' Hx Hl]; subst.
      rewrite Hx. apply IH in Hl. rewrite Hl. reflexivity.
Qed.

Lemma mapM_select (f : A -> exn + B) (m : list bool) (l : list A)
    (ys : list B) :
  mapM f l = inr ys -> mapM f (select m l) = inr (select m ys).
Proof.
  revert l ys. induction m as [| b m IH]; intros [| x l] ys; cbn [mapM].
  - intros H. injection H as <-. reflexivity.
  - intros _. reflexivity.
  - intros H. injection H as <-. reflexivity.
  - destruct (f x) as [e | y] eqn:Ex; [discriminate |].
    destruct (mapM f l) as [e | ys'] eqn:El; [discriminate |].
    intros H. injection H as <-. cbn [select].
    destruct b; cbn [mapM]; rewrite ?Ex, (IH l ys' El); reflexivity.
Qed.

End Selections.

Lemma mapM_truediv_numbers (v : list cell) (d : Z) :
  forallb is_number v = true <->
  exists v', mapM (fun c => cell_truediv c d) v = inr v'.
Proof.
  induction v as [| c v IH]; cbn [forallb mapM].
  - split; [intros _; exists []; reflexivity | reflexivity].
  - rewrite andb_true_iff, IH. split.
    + intros [Hc [v' Hv]]. rewrite Hv.
      destruct c; cbn [cell_truediv is_number] in *; try discriminate;
        eexists; reflexivity.
    + intros [v' H].
      destruct c; cbn [cell_truediv is_number] in *; try discriminate;
        (split; [reflexivity |]);
        destruct (mapM _ v) as [e | ys]; try discriminate;
        eexists; reflexivity.
Qed.

Lemma anomaly_mask_length (o : list cell) :
  List.length (anomaly_mask o) = List.length o.
Proof. apply length_map. Qed.

(** Cutting the flags by their own mask leaves the flags equal to 1. *)
Lemma select_flags (o : list cell) :
  select (anomaly_mask o) o = filter (fun c => cell_eq c 1) o.
Proof.
  unfold anomaly_mask. induction o as [| c o IH]; cbn [map select filter];
    [reflexivity |].
  destruct (cell_eq c 1); rewrite IH; reflexivity.
Qed.

Lemma anomaly_count (o : list cell) :
  List.length (filter (fun b : bool => b) (anomaly_mask o)) =
  List.length (filter (fun c => cell_eq c 1) o).
Proof.
  unfold anomaly_mask. induction o as [| c o IH]; cbn [map filter];
    [reflexivity |].
  destruct (cell_eq c 1); cbn [List.length]; rewrite IH; reflexivity.
Qed.

(** ** The monad *)

Lemma bind_ok (A B : Type) (m : M A) (k : A -> M B) w w' b :
  bind m k w = (w', inr b) ->
  exists w1 a, m w = (w1, inr a) /\ k a w1 = (w', inr b).
Proof.
  unfold bind. destruct (m w) as [w1 [e | a]]; intros H.
  - discriminate.
  - exists w1, a. split; [reflexivity | exact H].
Qed.

Lemma bind_run (A B : Type) (m : M A) (k : A -> M B) w w1 a :
  m w = (w1, inr a) -> bind m k w = k a w1.
Proof. unfold bind. intros ->. reflexivity. Qed.

Lemma bind_fail (A B : Type) (m : M A) (k : A -> M B) w w1 e :
  m w = (w1, inl e) -> bind m k w = (w1, inl e).
Proof. unfold bind. intros ->. reflexivity. Qed.

Lemma bind_assoc (A B C : Type) (m : M A) (k : A -> M B) (h : B -> M C) w :
  bind (bind m k) h w = bind m (fun x => bind (k x) h) w.
Proof. unfold bind. destruct (m w) as [w1 [e | a]]; reflexivity. Qed.

Lemma lift_ok (A : Type) (r : exn + A) w w' a :
  lift r w = (w', inr a) -> w' = w /\ r = inr a.
Proof. unfold lift. intros H. injection H as <- ->. split; reflexivity. Qed.

(** ** Columns, masks and selections *)

Lemma getitem_inr df k s :
  getitem df k = inr s <->
  exists c, lookup_column k (columns df) = Some c /\ s = mkSeries (index df) c.
Proof.
  unfold getitem. destruct (lookup_column k (columns df)) as [c |]; split.
  - intros H. injection H as <-. exists c. split; reflexivity.
  - intros (c' & H & ->). injection H as ->. reflexivity.
  - discriminate.
  - intros (c' & H & _). discriminate.
Qed.

Lemma lookup_getitem_mask k df m :
  lookup_column k (columns (getitem_mask df m)) =
  option_map (select (s_values m)) (lookup_column k (columns df)).
Proof.
  unfold getitem_mask. cbn [columns].
  induction (columns df) as [| [n c] cols IH]; cbn [map lookup_column fst snd].
  - reflexivity.
  - destruct (String.eqb n k); [reflexivity | exact IH].
Qed.

Lemma getitem_mask_inr df (flags : Series cell) k c :
  lookup_column k (columns df) = Some c ->
  getitem (getitem_mask df (series_eq flags 1)) k =
  inr (mkSeries (select (anomaly_mask (s_values flags)) (index df))
                (select (anomaly_mask (s_values flags)) c)).
Proof.
  intros H. unfold getitem. rewrite lookup_getitem_mask, H. reflexivity.
Qed.

Lemma getitem_mask_inl df (flags : Series cell) k :
  lookup_column k (columns df) = None ->
  getitem (getitem_mask df (series_eq flags 1)) k = inl (KeyError k).
Proof.
  intros H. unfold getitem. rewrite lookup_getitem_mask, H. reflexivity.
Qed.

Lemma series_truediv_inr s d s' :
  series_truediv s d = inr s' <->
  exists ys, mapM (fun c => cell_truediv c d) (s_values s) = inr ys /\
             s' = mkSeries (s_index s) ys.
Proof.
  unfold series_truediv.
  destruct (mapM _ (s_values s)) as [e | ys]; split.
  - discriminate.
  - intros (ys & H & _). discriminate.
  - intros H. injection H as <-. exists ys. split; reflexivity.
  - intros (ys' & H & ->). injection H as ->. reflexivity.
Qed.

(** ** What a run writes and shows *)

Lemma saved_app (l1 l2 : list Event) : saved (l1 ++ l2) = saved l1 ++ saved l2.
Proof.
  induction l1 as [| [v | p f | f] l1 IH]; cbn [app saved]; rewrite ?IH;
    reflexivity.
Qed.

Lemma shown_app (l1 l2 : list Event) : shown (l1 ++ l2) = shown l1 ++ shown l2.
Proof.
  induction l1 as [| [v | p f | f] l1 IH]; cbn [app shown]; rewrite ?IH;
    reflexivity.
Qed.

Lemma datetime_calls_app (l1 l2 : list Event) :
  datetime_calls (l1 ++ l2) = datetime_calls l1 ++ datetime_calls l2.
Proof.
  induction l1 as [| [v | p f | f] l1 IH]; cbn [app datetime_calls];
    rewrite ?IH; reflexivity.
Qed.

(** A statement is quiet when it neither writes a file nor shows a figure,
    whether it returns or raises. *)
Definition quiet (A : Type) (m : M A) : Prop :=
  forall w w' r, m w = (w', r) ->
    saved (trace w') = saved (trace w) /\ shown (trace w') = shown (trace w).

(** A statement fails clean when a run of it that raises has written no
    file and shown no figure. *)
Definition fails_clean (A : Type) (m : M A) : Prop :=
  forall w w' e, m w = (w', inl e) ->
    saved (trace w') = saved (trace w) /\ shown (trace w') = shown (trace w).

Create HintDb quiet.

Lemma quiet_ret (A : Type) (x : A) : quiet (ret x).
Proof. intros w w' r H. injection H as <- _. split; reflexivity. Qed.

Lemma quiet_raise (A : Type) (e : exn) : quiet (@raise A e).
Proof. intros w w' r H. injection H as <- _. split; reflexivity. Qed.

Lemma quiet_lift (A : Type) (r : exn + A) : quiet (lift r).
Proof. intros w w' r' H. injection H as <- _. split; reflexivity. Qed.

Lemma quiet_bind (A B : Type) (m : M A) (k : A -> M B) :
  quiet m -> (forall a, quiet (k a)) -> quiet (bind m k).
Proof.
  intros Hm Hk w w' r. unfold bind.
  destruct (m w) as [w1 [e | a]] eqn:E; intros H.
  - injection H as <- _. exact (Hm _ _ _ E).
  - destruct (Hm _ _ _ E) as [<- <-]. exact (Hk a _ _ _ H).
Qed.

Lemma quiet_if (A : Type) (b : bool) (m1 m2 : M A) :
  quiet m1 -> quiet m2 -> quiet (if b then m1 else m2).
Proof. destruct b; intros; assumption. Qed.

Lemma quiet_read_csv pd env src : quiet (read_csv pd env src).
Proof.
  unfold read_csv.
  destruct src; [| destruct (fs env p)]; try destruct (parse_csv pd _ _);
    auto using quiet_ret, quiet_raise.
Qed.

Lemma quiet_to_datetime pd s : quiet (to_datetime pd s).
Proof.
  intros w w' r. unfold to_datetime.
  destruct (convert_datetime pd (s_values s)); intros H; injection H as <- _;
    cbn [log trace]; rewrite saved_app, shown_app; cbn [saved shown];
    rewrite !app_nil_r; split; reflexivity.
Qed.

Lemma quiet_plt_figure size : quiet (plt_figure size).
Proof. intros w w' r H. injection H as <- _. split; reflexivity. Qed.

Lemma quiet_modify_fig f : quiet (modify_fig f).
Proof.
  intros w w' r. unfold modify_fig. destruct (gcf w); intros H;
    injection H as <- _; split; reflexivity.
Qed.

Lemma quiet_modify_axes ax f : quiet (modify_axes ax f).
Proof. apply quiet_modify_fig. Qed.

Lemma quiet_add_subplot r c i : quiet (add_subplot r c i).
Proof.
  intros w w' r'. unfold add_subplot. destruct (gcf w); intros H;
    injection H as <- _; split; reflexivity.
Qed.

Lemma quiet_plot ax x y kw : quiet (plot ax x y kw).
Proof.
  unfold plot. apply quiet_if; [apply quiet_modify_axes | apply quiet_raise].
Qed.

Lemma quiet_forM_ (A : Type) (l : list A) (body : A -> M unit) :
  (forall a, quiet (body a)) -> quiet (forM_ l body).
Proof.
  intros H. induction l as [| x l IH]; cbn [forM_].
  - apply quiet_ret.
  - apply quiet_bind; [apply H | intros _; exact IH].
Qed.

#[export] Hint Resolve quiet_ret quiet_raise quiet_lift quiet_read_csv
  quiet_to_datetime quiet_plt_figure quiet_modify_axes quiet_modify_fig
  quiet_add_subplot quiet_plot : quiet.

Lemma quiet_threshold ax th :
  quiet (if truthy th
         then match th with
              | Some y => axhline ax y "red" "--"
              | None => ret tt
              end
         else ret tt).
Proof.
  apply quiet_if; [| apply quiet_ret].
  destruct th; [apply quiet_modify_axes | apply quiet_ret].
Qed.

Lemma fails_clean_bind (A B : Type) (m : M A) (k : A -> M B) :
  quiet m -> (forall a, fails_clean (k a)) -> fails_clean (bind m k).
Proof.
  intros Hm Hk w w' e. unfold bind.
  destruct (m w) as [w1 [e1 | a]] eqn:E; intros H.
  - injection H as <- _. exact (Hm _ _ _ E).
  - destruct (Hm _ _ _ E) as [<- <-]. exact (Hk a _ _ _ H).
Qed.

(** The last two statements: a failed save leaves no file, and nothing is
    shown before the save has succeeded. *)
Lemma fails_clean_save env p (b : bool) :
  fails_clean (savefig env p ;;; (if b then plt_show else ret tt)).
Proof.
  intros w w' e. unfold bind, savefig.
  destruct (writable env p).
  - destruct b; intros H; discriminate.
  - intros H. injection H as <- _. split; reflexivity.
Qed.

(** A run of [main] that raises has written no file and shown no figure. *)
Lemma main_fails_clean pd env : fails_clean (main pd env).
Proof.
  unfold main. cbv zeta.
  repeat (apply fails_clean_bind;
          [ first [ apply quiet_threshold
                  | apply quiet_forM_; intros;
                    repeat (apply quiet_bind; [| intros]);
                    apply quiet_modify_axes
                  | apply quiet_modify_fig
                  | solve [auto with quiet]
                  | apply quiet_modify_axes ]
          | intros ]).
  apply fails_clean_save.
Qed.

(** ** What a run can raise *)

Definition raises (A : Type) (P : exn -> Prop) (m : M A) : Prop :=
  forall w w' e, m w = (w', inl e) -> P e.

Lemma raises_bind (A B : Type) (P : exn -> Prop) (m : M A) (k : A -> M B) :
  raises P m -> (forall a, raises P (k a)) -> raises P (bind m k).
Proof.
  intros Hm Hk w w' e. unfold bind.
  destruct (m w) as [w1 [e1 | a]] eqn:E; intros H.
  - injection H as _ <-. exact (Hm _ _ _ E).
  - exact (Hk a _ _ _ H).
Qed.

Lemma raises_ret (A : Type) (P : exn -> Prop) (x : A) : raises P (ret x).
Proof. intros w w' e H. discriminate. Qed.

Lemma raises_if (A : Type) (P : exn -> Prop) (b : bool) (m1 m2 : M A) :
  raises P m1 -> raises P m2 -> raises P (if b then m1 else m2).
Proof. destruct b; intros; assumption. Qed.

Lemma raises_getitem (P : exn -> Prop) df k :
  P (KeyError k) -> raises P (lift (getitem df k)).
Proof.
  intros HP w w' e. unfold lift, getitem.
  destruct (lookup_column k (columns df)); intros H; [discriminate |].
  injection H as _ <-. exact HP.
Qed.

Lemma mapM_truediv_raises (v : list cell) (d : Z) (e : exn) :
  mapM (fun c => cell_truediv c d) v = inl e -> e = TypeError.
Proof.
  induction v as [| c v IH]; cbn [mapM]; [discriminate |].
  destruct c; cbn [cell_truediv];
    try (destruct (mapM _ v) as [e' | ys];
         [intros H; injection H as <-; apply IH; reflexivity | discriminate]).
  intros H. injection H as <-. reflexivity.
Qed.

Lemma raises_truediv (P : exn -> Prop) s d :
  P TypeError -> raises P (lift (series_truediv s d)).
Proof.
  intros HP w w' e. unfold lift, series_truediv.
  destruct (mapM _ (s_values s)) as [e' |] eqn:E; intros H; [| discriminate].
  injection H as _ <-. rewrite (mapM_truediv_raises _ _ E). exact HP.
Qed.

Lemma raises_to_datetime (P : exn -> Prop) pd s :
  P ValueError -> raises P (to_datetime pd s).
Proof.
  intros HP w w' e. unfold to_datetime.
  destruct (convert_datetime pd (s_values s)); intros H; [discriminate |].
  injection H as _ <-. exact HP.
Qed.

Lemma raises_modify_fig (P : exn -> Prop) f : raises P (modify_fig f).
Proof.
  intros w w' e. unfold modify_fig. destruct (gcf w); discriminate.
Qed.

Lemma raises_modify_axes (P : exn -> Prop) ax f : raises P (modify_axes ax f).
Proof. apply raises_modify_fig. Qed.

Lemma raises_add_subplot (P : exn -> Prop) r c i :
  raises P (add_subplot r c i).
Proof.
  intros w w' e. unfold add_subplot. destruct (gcf w); discriminate.
Qed.

Lemma raises_plt_figure (P : exn -> Prop) size : raises P (plt_figure size).
Proof. intros w w' e H. discriminate. Qed.

Lemma raises_plot (P : exn -> Prop) ax x y kw :
  P ValueError -> raises P (plot ax x y kw).
Proof.
  intros HP. unfold plot. apply raises_if; [apply raises_modify_axes |].
  intros w w' e H. injection H as _ <-. exact HP.
Qed.

Lemma raises_forM_ (A : Type) (P : exn -> Prop) (l : list A)
    (body : A -> M unit) :
  (forall a, raises P (body a)) -> raises P (forM_ l body).
Proof.
  intros H. induction l as [| x l IH]; cbn [forM_].
  - apply raises_ret.
  - apply raises_bind; [apply H | intros _; exact IH].
Qed.

Lemma raises_threshold (P : exn -> Prop) ax th :
  raises P (if truthy th
            then match th with
                 | Some y => axhline ax y "red" "--"
                 | None => ret tt
                 end
            else ret tt).
Proof.
  apply raises_if; [| apply raises_ret].
  destruct th; [apply raises_modify_axes | apply raises_ret].
Qed.

Lemma raises_read_csv pd env (a : Namespace) :
  raises (raised_by_main a)
         (read_csv pd env
            (if String.eqb (path a) "-" then Stdin else File (path a))).
Proof.
  intros w w' e. unfold read_csv, ret, raise.
  destruct (String.eqb (path a) "-") eqn:Ep.
  - destruct (parse_csv pd Stdin (stdin env)); intros H; [discriminate |].
    injection H as _ <-. left. reflexivity.
  - apply String.eqb_neq in Ep.
    destruct (fs env (path a)) as [content |].
    + destruct (parse_csv pd (File (path a)) content); intros H;
        [discriminate |].
      injection H as _ <-. left. reflexivity.
    + intros H. injection H as _ <-. right. left.
      split; [exact Ep | reflexivity].
Qed.

Lemma raises_save env (a : Namespace) (b : bool) :
  raises (raised_by_main a)
         (savefig env (output a) ;;; (if b then plt_show else ret tt)).
Proof.
  intros w w' e. unfold bind, savefig.
  destruct (writable env (output a)).
  - destruct b; intros H; discriminate.
  - intros H. injection H as _ <-. do 5 right. reflexivity.
Qed.

(** A run of [main] that raises has raised one of [raised_by_main]. *)
Lemma main_raises pd env :
  raises (raised_by_main (parse_args (argv env))) (main pd env).
Proof.
  unfold main. cbv zeta.
  set (a := parse_args (argv env)).
  assert (Hkey : forall k,
            In k ["output"; "Time"; "value"; "saliency"; "score"] ->
            raised_by_main a (KeyError k)).
  { intros k Hk. right. right. left. exists k. split; [exact Hk | reflexivity]. }
  assert (Htype : raised_by_main a TypeError) by (do 3 right; left; reflexivity).
  assert (Hvalue : raised_by_main a ValueError)
    by (do 4 right; left; reflexivity).
  repeat (apply raises_bind;
          [ first [ apply raises_read_csv
                  | apply raises_getitem; apply Hkey; cbn [In]; tauto
                  | apply raises_truediv; exact Htype
                  | apply raises_to_datetime; exact Hvalue
                  | apply raises_plot; exact Hvalue
                  | apply raises_threshold
                  | apply raises_forM_; intros;
                    repeat (apply raises_bind; [| intros]);
                    apply raises_modify_axes
                  | apply raises_plt_figure
                  | apply raises_add_subplot
                  | apply raises_modify_fig
                  | apply raises_modify_axes ]
          | intros ]).
  apply raises_save.
Qed.

(** ** Successful runs *)

Section Runs.

Variable pd : Pandas.
Variable env : Env.

Lemma read_csv_pure src w w' r :
  read_csv pd env src w = (w', r) -> w' = w /\ forall w0, read_csv pd env src w0 = (w0, r).
Proof.
  unfold read_csv, ret, raise. intros H.
  destruct src; [| destruct (fs env p)]; try destruct (parse_csv pd _ _);
    injection H as <- <-; split; reflexivity.
Qed.

Lemma to_datetime_ok s w w' ts :
  to_datetime pd s w = (w', inr ts) ->
  w' = log w (EvToDatetime (s_values s)) /\
  exists l, convert_datetime pd (s_values s) = Some l /\
            ts = mkSeries (s_index s) l.
Proof.
  unfold to_datetime. destruct (convert_datetime pd (s_values s)) as [l |];
    intros H; [| discriminate].
  injection H as <- <-. split; [reflexivity |]. exists l. split; reflexivity.
Qed.

Lemma to_datetime_run s w l :
  convert_datetime pd (s_values s) = Some l ->
  to_datetime pd s w =
  (log w (EvToDatetime (s_values s)), inr (mkSeries (s_index s) l)).
Proof. unfold to_datetime. intros ->. reflexivity. Qed.

Lemma plot_ok ax x y kw w w' u :
  plot ax x y kw w = (w', inr u) ->
  List.length (s_values x) = List.length (s_values y) /\
  modify_axes ax (fun a =>
      mkAxes (geometry a) (title a)
             (lines a ++ [mkLine (s_values x) (s_values y) kw]) (hlines a)
             (major_locator a) (minor_locator a) (major_formatter a)) w
  = (w', inr u).
Proof.
  unfold plot. destruct (Nat.eqb _ _) eqn:E; intros H.
  - split; [apply Nat.eqb_eq; exact E | exact H].
  - discriminate.
Qed.

Lemma plot_run ax x y kw w :
  List.length (s_values x) = List.length (s_values y) ->
  plot ax x y kw w =
  modify_axes ax (fun a =>
      mkAxes (geometry a) (title a)
             (lines a ++ [mkLine (s_values x) (s_values y) kw]) (hlines a)
             (major_locator a) (minor_locator a) (major_formatter a)) w.
Proof.
  unfold plot. intros E. apply Nat.eqb_eq in E. rewrite E. reflexivity.
Qed.

Lemma savefig_ok p w w' u :
  savefig env p w = (w', inr u) ->
  writable env p = true /\ w' = log w (EvSavefig p (current_figure w)).
Proof.
  unfold savefig. destruct (writable env p); intros H; [| discriminate].
  injection H as <- _. split; reflexivity.
Qed.

Lemma savefig_run p w :
  writable env p = true ->
  savefig env p w = (log w (EvSavefig p (current_figure w)), inr tt).
Proof. unfold savefig. intros ->. reflexivity. Qed.

End Runs.

(** Run one total statement of [main] on an explicit world. *)
Ltac total_op Hm :=
  cbv [plt_figure add_subplot set_title modify_axes modify_fig axhline
       set_major_locator set_minor_locator set_major_formatter autofmt_xdate
       ret] in Hm;
  cbn [gcf set_gcf log trace axes figsize autofmt app List.length update_nth
       geometry title lines hlines major_locator minor_locator
       major_formatter] in Hm;
  injection Hm as <- <-.

(** Invert the first statement of a successful run. *)
Ltac inv_step H :=
  let Hm := fresh "Hm" in
  let w1 := fresh "w" in
  let a := fresh "a" in
  apply bind_ok in H; destruct H as (w1 & a & Hm & H);
  lazymatch type of Hm with
  | lift _ _ = _ => apply lift_ok in Hm; destruct Hm as [-> Hm]
  | read_csv _ _ _ _ = _ =>
      let E := fresh "E" in
      destruct (@read_csv_pure _ _ _ _ _ _ Hm) as [E _]; subst w1
  | to_datetime _ _ _ = _ =>
      apply to_datetime_ok in Hm; destruct Hm as [-> (? & Hm & ->)]
  | plot _ _ _ _ _ = _ =>
      apply plot_ok in Hm; destruct Hm as [? Hm]; total_op Hm
  | savefig _ _ _ = _ =>
      apply savefig_ok in Hm; destruct Hm as [? ->]
  | _ => total_op Hm
  end;
  cbv [set_gcf log current_figure] in H; cbn [gcf trace] in H.

(** Turn what the inversion found into facts on the columns. *)
Ltac columns_facts :=
  repeat match goal with
  | H : getitem (getitem_mask _ _) _ = inr _ |- _ =>
      unfold getitem in H; rewrite lookup_getitem_mask in H
  | H : getitem _ _ = inr _ |- _ =>
      apply getitem_inr in H; destruct H as (? & H & ->)
  end;
  repeat match goal with
  | H1 : lookup_column ?k ?c = Some _,
    H2 : context [lookup_column ?k ?c] |- _ =>
      rewrite H1 in H2; cbn [option_map] in H2; injection H2 as <-
  end;
  repeat match goal with
  | H : series_truediv _ _ = inr _ |- _ =>
      apply series_truediv_inr in H; destruct H as (? & H & ->)
  end;
  cbn [s_values s_index series_eq] in *.

(** Run the first statement of [main] on an explicit world. *)
Ltac run_total :=
  cbv [plt_figure add_subplot set_title modify_axes modify_fig axhline
       set_major_locator set_minor_locator set_major_formatter
       autofmt_xdate ret];
  cbn [gcf]; reflexivity.

Ltac run_step :=
  rewrite ?bind_assoc; cbv beta;
  erewrite bind_run;
  [| lazymatch goal with
     | |- read_csv _ _ _ _ = _ => eassumption
     | |- to_datetime _ _ _ = _ =>
         apply to_datetime_run; cbn [s_values]; eassumption
     | |- savefig _ _ _ = _ => apply savefig_run; eassumption
     | |- lift _ _ = _ =>
         unfold lift;
         match goal with
         | H : getitem ?d ?k = _ |- context [getitem ?d ?k] => rewrite H
         | H : series_truediv ?s ?d = _ |- context [series_truediv ?s ?d] =>
             rewrite H
         end; reflexivity
     | |- plot _ _ _ _ _ = _ =>
         rewrite plot_run by (cbn [s_values]; assumption); run_total
     | |- _ => run_total
     end ];
  cbv [set_gcf log current_figure];
  cbn [gcf trace axes figsize autofmt app List.length update_nth s_values
       s_index geometry title lines hlines major_locator minor_locator
       major_formatter].

Section Whole.

Variable pd : Pandas.
Variable env : Env.

Lemma main_ok w w' :
  main pd env w = (w', inr tt) ->
  let a := parse_args (argv env) in
  exists data fig evs,
    read_csv pd env (source_of a) w = (w, inr data) /\
    renders pd a data fig evs /\
    writable env (output a) = true /\
    w' = finished a w fig evs.
Proof.
  unfold main. intros H. cbv zeta in H.
  fold (source_of (parse_args (argv env))) in H.
  set (a := parse_args (argv env)) in *. cbv zeta.
  repeat inv_step H.
  apply bind_ok in H. destruct H as (w1 & u & Hth & H).
  destruct (threshold a) as [y |] eqn:Eth; cbn [truthy] in Hth;
    [destruct (float_truthy y) eqn:Ey |];
    total_op Hth; cbn [forM_ app] in H; repeat inv_step H;
    (destruct (show a) eqn:Eshow; cbv [plt_show ret] in H;
     cbv [set_gcf log current_figure] in H; cbn [gcf trace] in H;
     injection H as <-);
    columns_facts;
    (exists a0; eexists; eexists;
     split; [eassumption |];
     split; [eapply renders_intro; eassumption |];
     split; [assumption |];
     unfold finished, threshold_lines; rewrite Eth, ?Ey, Eshow;
     rewrite <- !app_assoc; reflexivity).
Qed.

Lemma main_run w data fig evs :
  let a := parse_args (argv env) in
  read_csv pd env (source_of a) w = (w, inr data) ->
  renders pd a data fig evs ->
  writable env (output a) = true ->
  main pd env w = (finished a w fig evs, inr tt).
Proof.
  intros a Hread Hrend Hwr.
  destruct Hrend as [o tm v s sc t ta v' av'
                       Ho Htm Hta Ht Hv Hv' Ltv Hav' Ltav Hs Lts Ltas
                       Hsc Ltsc Ltasc].
  pose proof (proj2 (getitem_inr data "output" _)
                (ex_intro _ o (conj Ho eq_refl))) as Go.
  pose proof (proj2 (getitem_inr data "Time" _)
                (ex_intro _ tm (conj Htm eq_refl))) as Gtm.
  pose proof (proj2 (getitem_inr data "value" _)
                (ex_intro _ v (conj Hv eq_refl))) as Gv.
  pose proof (proj2 (getitem_inr data "saliency" _)
                (ex_intro _ s (conj Hs eq_refl))) as Gs.
  pose proof (proj2 (getitem_inr data "score" _)
                (ex_intro _ sc (conj Hsc eq_refl))) as Gsc.
  pose proof (@getitem_mask_inr data (mkSeries (index data) o) _ _ Htm) as Atm.
  pose proof (@getitem_mask_inr data (mkSeries (index data) o) _ _ Hv) as Av.
  pose proof (@getitem_mask_inr data (mkSeries (index data) o) _ _ Hs) as As.
  pose proof (@getitem_mask_inr data (mkSeries (index data) o) _ _ Hsc) as Asc.
  cbn [s_values] in Atm, Av, As, Asc.
  assert (Dv : series_truediv (mkSeries (index data) v) 1000 =
               inr (mkSeries (index data) v')).
  { apply series_truediv_inr. exists v'. split; [exact Hv' | reflexivity]. }
  assert (Dav : series_truediv
                  (mkSeries (select (anomaly_mask o) (index data))
                            (select (anomaly_mask o) v)) 1000 =
                inr (mkSeries (select (anomaly_mask o) (index data)) av')).
  { apply series_truediv_inr. exists av'. split; [exact Hav' | reflexivity]. }
  unfold main. cbv zeta. fold (source_of (parse_args (argv env))). fold a.
  do 27 run_step.
  unfold finished, threshold_lines.
  destruct (threshold a) as [y |] eqn:Eth; cbn [truthy];
    [destruct (float_truthy y) eqn:Ey |];
    cbn [forM_ app]; do 13 run_step;
    destruct (show a) eqn:Eshow;
    cbv [plt_show ret log current_figure]; cbn [gcf trace];
    rewrite <- !app_assoc; reflexivity.
Qed.


End Whole.

(** ** Tables and the command line *)

Lemma lookup_wf df k c :
  wf_frame df -> lookup_column k (columns df) = Some c ->
  List.length c = List.length (index df).
Proof.
  unfold wf_frame. induction 1 as [| [n x] cols Hx _ IH];
    cbn [lookup_column]; [discriminate |].
  destruct (String.eqb n k); [| exact IH].
  intros H. injection H as <-. exact Hx.
Qed.


Lemma wf_getitem_mask df m : wf_frame df -> wf_frame (getitem_mask df m).
Proof.
  unfold wf_frame, getitem_mask. cbn [index columns]. intros H.
  apply Forall_map. revert H. apply Forall_impl. intros [n c] Hc.
  cbn [fst snd] in *. apply select_length_eq. exact Hc.
Qed.

(** On a valid table, with a conversion that treats each cell on its own,
    every statement between the load and the save succeeds. *)
Lemma valid_renders pd a data :
  elementwise (convert_datetime pd) -> valid_table pd data ->
  exists fig evs, renders pd a data fig evs.
Proof.
  intros [g Hg] (Hwf & o & tm & v & s & sc & t & Ho & Htm & Hv & Hs & Hsc
                 & Ht & Lt & Hnum).
  apply (mapM_truediv_numbers v 1000) in Hnum. destruct Hnum as [v' Hv'].
  pose proof (lookup_wf _ Hwf Htm) as Ltm.
  pose proof (lookup_wf _ Hwf Hv) as Lv.
  pose proof (lookup_wf _ Hwf Hs) as Ls.
  pose proof (lookup_wf _ Hwf Hsc) as Lsc.
  pose proof (mapM_length _ _ Hv') as Lv'.
  assert (Hta : convert_datetime pd (select (anomaly_mask o) tm) =
                Some (select (anomaly_mask o) t)).
  { rewrite Hg in *. apply traverse_select. exact Ht. }
  do 2 eexists.
  apply (@renders_intro pd a data o tm v s sc t (select (anomaly_mask o) t)
            v' (select (anomaly_mask o) v'));
    try assumption; try lia;
    try (apply select_length_eq; lia).
  apply mapM_select. exact Hv'.
Qed.


Lemma fold_set_option_path opts : forall a,
  path (fold_left set_option opts a) = path a.
Proof.
  induction opts as [| o opts IH]; intros a; cbn [fold_left];
    [reflexivity |].
  rewrite IH. destruct o; reflexivity.
Qed.

Lemma fold_set_option_name opts : forall a,
  (forall s, ~ In (OptName s) opts) ->
  name (fold_left set_option opts a) = name a.
Proof.
  induction opts as [| o opts IH]; intros a H; cbn [fold_left];
    [reflexivity |].
  rewrite IH.
  - destruct o; try reflexivity. exfalso. apply (H s). left. reflexivity.
  - intros s Hin. apply (H s). right. exact Hin.
Qed.

(** ** The figure of a successful run *)

Lemma run_figure pd env w w' :
  main pd env w = (w', inr tt) ->
  let a := parse_args (argv env) in
  exists data fig evs,
    read_csv pd env (source_of a) w = (w, inr data) /\
    renders pd a data fig evs /\
    writable env (output a) = true /\
    gcf w' = Some fig /\
    saved (trace w') = saved (trace w) ++ [(output a, fig)] /\
    shown (trace w') = shown (trace w) ++ (if show a then [fig] else []) /\
    datetime_calls (trace w') =
      datetime_calls (trace w) ++ datetime_calls evs.
Proof.
  intros H a. apply main_ok in H.
  destruct H as (data & fig & evs & Hread & Hrend & Hwr & ->).
  exists data, fig, evs. repeat (split; [assumption |]).
  unfold finished. cbn [gcf trace]. fold a.
  rewrite !saved_app, !shown_app, !datetime_calls_app.
  destruct Hrend. cbn [saved shown datetime_calls app].
  destruct (show a); cbn [saved shown datetime_calls app];
    rewrite ?app_nil_r; repeat split; reflexivity.
Qed.

(** ** The anomaly subset *)

(** C2.  The anomaly subset of a rectangular table is rectangular; it has as
    many rows as there are flags equal to 1; a position is kept exactly when
    the flag there equals 1 (a flag 2, a NaN or a string is skipped, never
    refused); and its [j]-th row is, label and every cell, [Time] included,
    the row of the table at the [j]-th kept position. *)
Theorem anomaly_subset (df : DataFrame) (flags : Series cell) :
  wf_frame df ->
  getitem df "output" = inr flags ->
  let sub := getitem_mask df (series_eq flags 1) in
  let pos := positions 0 (anomaly_mask (s_values flags)) in
  wf_frame sub /\
  List.length (index sub) =
    List.length (filter (fun c => cell_eq c 1) (s_values flags)) /\
  (forall i, In i pos <->
             exists c, nth_error (s_values flags) i = Some c /\
                       cell_eq c 1 = true) /\
  (forall j, row_at sub j =
             match nth_error pos j with
             | Some i => row_at df i
             | None => (None, map (fun nc => (fst nc, None)) (columns df))
             end) /\
  (forall z, cell_eq (CInt z) 1 = true <-> z = 1) /\
  (forall s, cell_eq (CStr s) 1 = false).
Proof.
  intros Hwf Hflags sub pos.
  apply getitem_inr in Hflags. destruct Hflags as (o & Ho & ->).
  cbn [s_values] in *.
  pose proof (lookup_wf _ Hwf Ho) as Lo.
  assert (Lm : List.length (index df) = List.length (anomaly_mask o)).
  { rewrite anomaly_mask_length. symmetry. exact Lo. }
  split; [apply wf_getitem_mask; exact Hwf |].
  split.
  { subst sub. unfold getitem_mask, series_eq. cbn [index s_values].
    fold (anomaly_mask o).
    rewrite (select_length_count _ _ Lm). apply anomaly_count. }
  split.
  { intros i. subst pos. rewrite positions_spec, Nat.sub_0_r.
    unfold anomaly_mask. rewrite nth_error_map.
    destruct (nth_error o i) as [c |]; cbn [option_map]; split.
    - intros [_ H]. injection H as H. exists c. split; [reflexivity | exact H].
    - intros (c' & H & Hc). injection H as <-. split; [lia | congruence].
    - intros [_ H]. discriminate.
    - intros (c' & H & _). discriminate. }
  split.
  { intros j. subst sub pos. unfold row_at, getitem_mask, series_eq.
    cbn [index columns s_values]. fold (anomaly_mask o).
    rewrite (select_nth (anomaly_mask o) (index df) 0 j Lm).
    rewrite map_map. cbn [fst snd].
    assert (Hcol : forall nc, In nc (columns df) ->
              nth_error (select (anomaly_mask o) (snd nc)) j =
              match nth_error (positions 0 (anomaly_mask o)) j with
              | Some i => nth_error (snd nc) i
              | None => None
              end).
    { intros nc Hin. unfold wf_frame in Hwf. rewrite Forall_forall in Hwf.
      specialize (Hwf _ Hin).
      rewrite (select_nth (anomaly_mask o) (snd nc) 0 j) by congruence.
      destruct (nth_error (positions 0 (anomaly_mask o)) j);
        rewrite ?Nat.sub_0_r; reflexivity. }
    destruct (nth_error (positions 0 (anomaly_mask o)) j) as [i |];
      rewrite ?Nat.sub_0_r; f_equal; apply map_ext_in; intros nc Hin;
      rewrite (Hcol nc Hin); reflexivity. }
  split.
  - intros z. cbn [cell_eq]. apply Z.eqb_eq.
  - intros s. reflexivity.
Qed.

(** ** The panels of a successful run *)

(** Division by 1000, cell by cell: a float is divided by the float 1000, an
    integer and a boolean after conversion to float, and a text raises. *)
Lemma cell_truediv_1000 :
  (forall f, cell_truediv (CFloat f) 1000 =
             inr (CFloat (PrimFloat.div f 1000%float))) /\
  (forall z, cell_truediv (CInt z) 1000 =
             inr (CFloat (PrimFloat.div (float_of_Z z) 1000%float))) /\
  (forall b, cell_truediv (CBool b) 1000 =
             inr (CFloat (PrimFloat.div (if b then 1%float else 0%float)
                                        1000%float))) /\
  (forall s, cell_truediv (CStr s) 1000 = inl TypeError).
Proof.
  repeat split; try reflexivity. intros [|]; reflexivity.
Qed.

(** The conversion of an integer to a float is the hardware's on the
    non-negative machine integers, and is exact at both ends of int64. *)
Lemma float_of_Z_spec :
  (forall i, float_of_Z (Uint63.to_Z i) = PrimFloat.of_uint63 i) /\
  float_of_Z 0 = 0%float /\
  float_of_Z (- 1000) = (- 1000)%float /\
  float_of_Z (- 2 ^ 63) = (- 9223372036854775808)%float /\
  float_of_Z (2 ^ 63 - 1) = 9223372036854775808%float.
Proof.
  split.
  - intros i. unfold float_of_Z.
    rewrite <- FloatAxioms.of_uint63_spec.
    apply FloatAxioms.SF2Prim_Prim2SF.
  - repeat split; vm_compute; reflexivity.
Qed.

(** C3.  In the figure a successful run saves, the line of panel 1 pairs the
    converted [Time] column with the [value] column divided by 1000, cell by
    cell (a float by the float 1000, an integer or a boolean after its
    conversion to float), and its overlay does the same on the anomaly
    subset; panels 2 and 3 plot the [saliency] and [score] columns as they
    are. *)
Theorem value_panel_scaled pd env w w' :
  main pd env w = (w', inr tt) ->
  let a := parse_args (argv env) in
  exists data fig p1 p2 p3 o tm v s sc t ta y ya,
    read_csv pd env (source_of a) w = (w, inr data) /\
    saved (trace w') = saved (trace w) ++ [(output a, fig)] /\
    axes fig = [p1; p2; p3] /\
    lookup_column "output" (columns data) = Some o /\
    lookup_column "Time" (columns data) = Some tm /\
    lookup_column "value" (columns data) = Some v /\
    lookup_column "saliency" (columns data) = Some s /\
    lookup_column "score" (columns data) = Some sc /\
    convert_datetime pd tm = Some t /\
    convert_datetime pd (select (anomaly_mask o) tm) = Some ta /\
    lines p1 = [mkLine t y default_style; mkLine ta ya red_markers] /\
    Forall2 (fun c r => cell_truediv c 1000 = inr r) v y /\
    Forall2 (fun c r => cell_truediv c 1000 = inr r)
            (select (anomaly_mask o) v) ya /\
    lines p2 = [mkLine t s default_style;
                mkLine ta (select (anomaly_mask o) s) red_markers] /\
    lines p3 = [mkLine t sc default_style;
                mkLine ta (select (anomaly_mask o) sc) red_markers] /\
    (forall f, cell_truediv (CFloat f) 1000 =
               inr (CFloat (PrimFloat.div f 1000%float))) /\
    (forall z, cell_truediv (CInt z) 1000 =
               inr (CFloat (PrimFloat.div (float_of_Z z) 1000%float))) /\
    (forall b, cell_truediv (CBool b) 1000 =
               inr (CFloat (PrimFloat.div (if b then 1%float else 0%float)
                                          1000%float))) /\
    (forall i, float_of_Z (Uint63.to_Z i) = PrimFloat.of_uint63 i) /\
    float_of_Z (- 1000) = (- 1000)%float /\
    float_of_Z (- 2 ^ 63) = (- 9223372036854775808)%float.
Proof.
  intros H a. apply run_figure in H. fold a in H.
  destruct H as (data & fig & evs & Hread & Hrend & _ & _ & Hsaved & _).
  destruct Hrend as [o tm v s sc t ta v' av'
                       Ho Htm Hta Ht Hv Hv' Ltv Hav' Ltav Hs Lts Ltas
                       Hsc Ltsc Ltasc].
  do 5 eexists. exists o, tm, v, s, sc, t, ta, v', av'.
  split; [exact Hread |]. split; [exact Hsaved |].
  split; [reflexivity |].
  repeat (split; [assumption |]).
  split; [reflexivity |].
  split; [apply mapM_Forall2; exact Hv' |].
  split; [apply mapM_Forall2; exact Hav' |].
  split; [reflexivity |]. split; [reflexivity |].
  destruct cell_truediv_1000 as (Hf & Hz & Hb & _).
  destruct float_of_Z_spec as (Hu & _ & Hneg & Hmin & _).
  repeat (split; [assumption |]). exact Hmin.
Qed.

(** C8.  The figure a successful run saves is 12.8 by 9.6 and holds three
    subplots, at places 1, 2 and 3 of a grid of three rows and one column,
    titled with the [name] option, "Saliency Map" and "Score"; without a
    [--name] option the first title is "value". *)
Theorem three_panels pd env w w' :
  main pd env w = (w', inr tt) ->
  let a := parse_args (argv env) in
  exists fig,
    saved (trace w') = saved (trace w) ++ [(output a, fig)] /\
    figsize fig = (12.8%float, 9.6%float) /\
    map geometry (axes fig) = [(3, 1, 1); (3, 1, 2); (3, 1, 3)]%nat /\
    map title (axes fig) = [name a; "Saliency Map"; "Score"] /\
    ((forall s, ~ In (OptName s) (snd (argv env))) -> name a = "value").
Proof.
  intros H a. apply run_figure in H. fold a in H.
  destruct H as (data & fig & evs & _ & Hrend & _ & _ & Hsaved & _).
  destruct Hrend. eexists. split; [exact Hsaved |].
  repeat (split; [reflexivity |]).
  intros Hno. subst a. unfold parse_args.
  rewrite fold_set_option_name by exact Hno. reflexivity.
Qed.

(** C9.  In the figure a successful run saves, each of the three panels has
    the major locator [HourLocator([0, 6, 12, 18])], whose hours are 0, 6,
    12 and 18, the minor locator [HourLocator(interval=1)], whose hours are
    all 24, and the major formatter [%Y-%m-%d %H:%M]; and the figure has had
    [autofmt_xdate] applied. *)
Theorem shared_time_axis pd env w w' :
  main pd env w = (w', inr tt) ->
  exists fig,
    saved (trace w') =
      saved (trace w) ++ [(output (parse_args (argv env)), fig)] /\
    List.length (axes fig) = 3%nat /\
    Forall (fun ax =>
              major_locator ax = Some (HourLocator (Some [0; 6; 12; 18]) 1) /\
              minor_locator ax = Some (HourLocator None 1) /\
              major_formatter ax = Some "%Y-%m-%d %H:%M") (axes fig) /\
    autofmt fig = true /\
    locator_hours (HourLocator (Some [0; 6; 12; 18]) 1) = [0; 6; 12; 18] /\
    locator_hours (HourLocator None 1) =
      [0; 1; 2; 3; 4; 5; 6; 7; 8; 9; 10; 11; 12; 13; 14; 15; 16; 17; 18; 19;
       20; 21; 22; 23].
Proof.
  intros H. apply run_figure in H.
  destruct H as (data & fig & evs & _ & Hrend & _ & _ & Hsaved & _).
  destruct Hrend. eexists. split; [exact Hsaved |].
  split; [reflexivity |].
  split; [repeat constructor |].
  repeat split; reflexivity.
Qed.



(** ** Failures *)



(** ** The source of the text *)



(** ** The [show] flag *)

Lemma bind_tail (A B C : Type) (m : M A) (k1 : A -> M B) (k2 : A -> M C)
    (h : B -> M C) w :
  (forall x w1, k2 x w1 = bind (k1 x) h w1) ->
  bind m k2 w = bind (bind m k1) h w.
Proof.
  intros H. unfold bind at 1 2 3. destruct (m w) as [w1 [e | x]].
  - reflexivity.
  - rewrite H. reflexivity.
Qed.

(** With [show], [main] is [main] without [show] followed by [plt.show()]. *)
Lemma main_then_show pd e0 e1 w :
  stdin e1 = stdin e0 -> fs e1 = fs e0 -> writable e1 = writable e0 ->
  path (parse_args (argv e1)) = path (parse_args (argv e0)) ->
  name (parse_args (argv e1)) = name (parse_args (argv e0)) ->
  threshold (parse_args (argv e1)) = threshold (parse_args (argv e0)) ->
  output (parse_args (argv e1)) = output (parse_args (argv e0)) ->
  show (parse_args (argv e0)) = false ->
  show (parse_args (argv e1)) = true ->
  main pd e1 w = bind (main pd e0) (fun _ => plt_show) w.
Proof.
  intros Hin Hfs Hwr Hp Hn Ht Ho Hs0 Hs1.
  assert (Hread : read_csv pd e1 = read_csv pd e0).
  { unfold read_csv. rewrite Hin, Hfs. reflexivity. }
  assert (Hsave : savefig e1 = savefig e0).
  { unfold savefig. rewrite Hwr. reflexivity. }
  unfold main. cbv zeta.
  rewrite Hread, Hsave, Hp, Hn, Ht, Ho, Hs0, Hs1.
  repeat (apply bind_tail; intros).
  reflexivity.
Qed.

(** C7.  Two runs that differ only in the [show] flag raise or return alike,
    write the same files with the same content and leave the same figure;
    when the run without [show] returns, it has written one file, and the
    run with [show] has the same log followed by one display, of the figure
    that was written. *)
Theorem show_only_adds_display pd e0 e1 w :
  stdin e1 = stdin e0 -> fs e1 = fs e0 -> writable e1 = writable e0 ->
  path (parse_args (argv e1)) = path (parse_args (argv e0)) ->
  name (parse_args (argv e1)) = name (parse_args (argv e0)) ->
  threshold (parse_args (argv e1)) = threshold (parse_args (argv e0)) ->
  output (parse_args (argv e1)) = output (parse_args (argv e0)) ->
  show (parse_args (argv e0)) = false ->
  show (parse_args (argv e1)) = true ->
  let r0 := main pd e0 w in
  let r1 := main pd e1 w in
  snd r1 = snd r0 /\
  saved (trace (fst r1)) = saved (trace (fst r0)) /\
  gcf (fst r1) = gcf (fst r0) /\
  (snd r0 = inr tt ->
   exists fig,
     saved (trace (fst r0)) =
       saved (trace w) ++ [(output (parse_args (argv e0)), fig)] /\
     shown (trace (fst r0)) = shown (trace w) /\
     trace (fst r1) = trace (fst r0) ++ [EvShow fig]).
Proof.
  intros Hin Hfs Hwr Hp Hn Ht Ho Hs0 Hs1 r0 r1.
  subst r1. rewrite (@main_then_show pd e0 e1 w Hin Hfs Hwr Hp Hn Ht Ho Hs0 Hs1).
  subst r0. unfold bind at 1 2 3 4.
  destruct (main pd e0 w) as [w0 [e | []]] eqn:E; cbn [fst snd plt_show].
  - repeat split; try reflexivity. discriminate.
  - cbn [log trace gcf]. rewrite saved_app. cbn [saved].
    rewrite app_nil_r. repeat split; try reflexivity.
    intros _. apply run_figure in E.
    destruct E as (data & fig & evs & _ & _ & _ & Hgcf & Hsaved & Hshown & _).
    exists fig. rewrite Hs0 in Hshown. rewrite app_nil_r in Hshown.
    split; [exact Hsaved |]. split; [exact Hshown |].
    unfold current_figure. rewrite Hgcf. reflexivity.
Qed.

(** ** A table without anomalies *)

(** C10.  On a valid table where no flag equals 1, with a writable output
    (and a conversion that accepts the empty column), the run returns: the
    anomaly subset has no row, each of the three panels carries an overlay
    of no point, drawn as red markers, and the figure is written. *)
Theorem no_anomaly_run pd env w data o :
  let a := parse_args (argv env) in
  read_csv pd env (source_of a) w = (w, inr data) ->
  valid_table pd data ->
  lookup_column "output" (columns data) = Some o ->
  (forall c, In c o -> cell_eq c 1 = false) ->
  convert_datetime pd [] = Some [] ->
  writable env (output a) = true ->
  let sub := getitem_mask data (series_eq (mkSeries (index data) o) 1) in
  exists w' fig,
    main pd env w = (w', inr tt) /\
    index sub = [] /\
    Forall (fun nc => snd nc = []) (columns sub) /\
    saved (trace w') = saved (trace w) ++ [(output a, fig)] /\
    List.length (axes fig) = 3%nat /\
    Forall (fun ax => exists l, lines ax = [l; mkLine [] [] red_markers])
           (axes fig).
Proof.
  intros a Hread (Hwf & o' & tm & v & s & sc & t & Ho' & Htm & Hv & Hs & Hsc
                  & Ht & Lt & Hnum) Ho Hnone Hempty Hwr sub.
  rewrite Ho in Ho'. injection Ho' as <-.
  assert (Hmask : Forall (fun b => b = false) (anomaly_mask o)).
  { unfold anomaly_mask. apply Forall_map. apply Forall_forall. exact Hnone. }
  assert (Hsel : forall (X : Type) (l : list X),
            select (anomaly_mask o) l = []).
  { intros X l. apply select_all_false. exact Hmask. }
  apply (mapM_truediv_numbers v 1000) in Hnum. destruct Hnum as [v' Hv'].
  pose proof (lookup_wf _ Hwf Htm) as Ltm.
  pose proof (lookup_wf _ Hwf Hv) as Lv.
  pose proof (lookup_wf _ Hwf Hs) as Ls.
  pose proof (lookup_wf _ Hwf Hsc) as Lsc.
  pose proof (mapM_length _ _ Hv') as Lv'.
  assert (Hrend : renders pd a data
            (mkFigure (12.8%float, 9.6%float)
               [panel 1 (name a) t v' [] [] [];
                panel 2 "Saliency Map" t s [] (select (anomaly_mask o) s) [];
                panel 3 "Score" t sc [] (select (anomaly_mask o) sc)
                      (threshold_lines (threshold a))]
               true)
            [EvToDatetime (select (anomaly_mask o) tm); EvToDatetime tm]).
  { apply (@renders_intro pd a data o tm v s sc t [] v' []);
      rewrite ?Hsel; try assumption; try reflexivity; lia. }
  rewrite !Hsel in Hrend.
  pose proof (@main_run pd env w data _ _ Hread Hrend Hwr) as Hrun. fold a in Hrun.
  eexists. eexists. split; [exact Hrun |].
  subst sub. unfold getitem_mask, series_eq. cbn [index columns s_values].
  fold (anomaly_mask o).
  split; [apply Hsel |].
  split.
  { apply Forall_map. apply Forall_forall. intros nc _. apply Hsel. }
  unfold finished. cbn [trace].
  rewrite !saved_app. cbn [saved app].
  split.
  { destruct (show a); cbn [saved]; reflexivity. }
  split; [reflexivity |].
  repeat constructor; eexists; reflexivity.
Qed.

(** ** The threshold line *)

(** In the figure a successful run saves, only the score panel can carry a
    horizontal line: none without a threshold, none with a threshold of zero,
    and otherwise one, red and dashed, at the threshold. *)
Lemma score_panel_lines pd env w w' :
  main pd env w = (w', inr tt) ->
  let a := parse_args (argv env) in
  exists fig p1 p2 p3,
    saved (trace w') = saved (trace w) ++ [(output a, fig)] /\
    axes fig = [p1; p2; p3] /\
    hlines p1 = [] /\ hlines p2 = [] /\
    hlines p3 = threshold_lines (threshold a) /\
    (threshold a = None -> hlines p3 = []) /\
    (forall y, threshold a = Some y -> float_truthy y = true ->
               hlines p3 = [mkHLine y "red" "--"]) /\
    (forall y, threshold a = Some y -> float_truthy y = false ->
               hlines p3 = []).
Proof.
  intros H a. apply run_figure in H. fold a in H.
  destruct H as (data & fig & evs & _ & Hrend & _ & _ & Hsaved & _).
  destruct Hrend. do 4 eexists. split; [exact Hsaved |].
  split; [reflexivity |].
  cbn [hlines panel]. repeat (split; [reflexivity |]).
  unfold threshold_lines. repeat split.
  - intros ->. reflexivity.
  - intros y -> ->. reflexivity.
  - intros y -> ->. reflexivity.
Qed.

(** C1 at [--threshold 0].  On the two-row table of the specification the
    run returns and writes its figure, the threshold is supplied and is 0,
    and the score panel carries no horizontal line. *)
Theorem threshold_zero_draws_no_line :
  let env := Sample.env_file "two.csv" [OptThreshold 0%float] in
  exists w' fig p1 p2 p3,
    main Sample.pandas env start = (w', inr tt) /\
    threshold (parse_args (argv env)) = Some 0%float /\
    saved (trace w') = [("output.png", fig)] /\
    axes fig = [p1; p2; p3] /\
    title p3 = "Score" /\
    hlines p3 = [].
Proof.
  intros env. do 5 eexists.
  split; [vm_compute; reflexivity |].
  repeat split; reflexivity.
Qed.

(** * Further properties of [main] *)

(** ** How a run can fail, in the order of the script *)

Lemma mapM_truediv_text (v : list cell) (d : Z) :
  forallb is_number v = false ->
  mapM (fun c => cell_truediv c d) v = inl TypeError.
Proof.
  induction v as [| c v IH]; cbn [forallb mapM]; [discriminate |].
  destruct c; cbn [is_number cell_truediv andb]; intros H;
    try (rewrite (IH H); reflexivity).
  reflexivity.
Qed.

(** X1.  From the load to the save (lines 45 to 95; the exit of argparse
    itself and a failure inside [plt.show] are outside this model), a run
    that raises has written no file and has shown no figure, and what it
    raised is one of: the loader's parser error, its file-not-found error
    on the [path] given (never for "-"), the key error on one of the five
    columns, the type error of the division, the value error of a conversion
    or a plot, the OS error on the [output] given. *)
Theorem failed_run_writes_nothing pd env w w' e :
  main pd env w = (w', inl e) ->
  let a := parse_args (argv env) in
  saved (trace w') = saved (trace w) /\
  shown (trace w') = shown (trace w) /\
  (e = ParserError \/
   (path a <> "-" /\ e = FileNotFoundError (path a)) \/
   (exists k, In k ["output"; "Time"; "value"; "saliency"; "score"] /\
              e = KeyError k) \/
   e = TypeError \/
   e = ValueError \/
   e = OSError (output a)).
Proof.
  intros H a.
  destruct (main_fails_clean pd env w H) as [Hsaved Hshown].
  split; [exact Hsaved |]. split; [exact Hshown |].
  exact (main_raises pd env w H).
Qed.

(** X2.  A text that cannot be loaded (no such file, or not a table) ends the
    run at once with the loader's exception, a data load error: no
    conversion has been asked of pandas and no figure exists. *)
Theorem load_failure pd env w e :
  read_csv pd env (source_of (parse_args (argv env))) w = (w, inl e) ->
  main pd env w = (w, inl e) /\
  classify e = DataLoadError /\
  (e = ParserError \/ exists p, e = FileNotFoundError p /\ fs env p = None).
Proof.
  intros H. split.
  - unfold main. cbv zeta. fold (source_of (parse_args (argv env))).
    erewrite bind_fail by exact H. reflexivity.
  - unfold read_csv, ret, raise in H.
    destruct (source_of (parse_args (argv env))) as [| p].
    + destruct (parse_csv pd Stdin (stdin env)); [discriminate |].
      injection H as <-. split; [reflexivity | left; reflexivity].
    + destruct (fs env p) as [text |] eqn:Efs.
      * destruct (parse_csv pd (File p) text); [discriminate |].
        injection H as <-. split; [reflexivity | left; reflexivity].
      * injection H as <-. split; [reflexivity |].
        right. exists p. split; [reflexivity | exact Efs].
Qed.

(** X3.  A table without an [output] column, or with one but without a [Time]
    column, ends the run with the key error on that column before anything
    else is done: no conversion has been asked and no figure exists. *)
Theorem missing_flag_or_time pd env w data :
  read_csv pd env (source_of (parse_args (argv env))) w = (w, inr data) ->
  (lookup_column "output" (columns data) = None ->
   main pd env w = (w, inl (KeyError "output"))) /\
  (lookup_column "output" (columns data) <> None ->
   lookup_column "Time" (columns data) = None ->
   main pd env w = (w, inl (KeyError "Time"))).
Proof.
  intros Hread. split.
  - intros Hnone.
    unfold main. cbv zeta. fold (source_of (parse_args (argv env))).
    run_step.
    erewrite bind_fail; [reflexivity |].
    unfold lift, getitem. rewrite Hnone. reflexivity.
  - intros Hsome Hnone.
    destruct (lookup_column "output" (columns data)) as [o |] eqn:Ho;
      [| contradiction].
    pose proof (proj2 (getitem_inr data "output" _)
                  (ex_intro _ o (conj Ho eq_refl))) as Go.
    unfold main. cbv zeta. fold (source_of (parse_args (argv env))).
    do 2 run_step.
    erewrite bind_fail; [reflexivity |].
    unfold lift. rewrite (@getitem_mask_inl data _ _ Hnone). reflexivity.
Qed.

(** X4.  A [Time] column that does not convert ends the run with a value
    error.  The anomaly subset is converted first, before the figure is
    created, so a failure there leaves no figure; a failure on the whole
    table comes after [plt.figure] and leaves the empty figure. *)
Theorem time_conversion_failure pd env w data o tm :
  read_csv pd env (source_of (parse_args (argv env))) w = (w, inr data) ->
  lookup_column "output" (columns data) = Some o ->
  lookup_column "Time" (columns data) = Some tm ->
  (convert_datetime pd (select (anomaly_mask o) tm) = None ->
   main pd env w =
   (mkWorld (gcf w) (trace w ++ [EvToDatetime (select (anomaly_mask o) tm)]),
    inl ValueError)) /\
  (convert_datetime pd (select (anomaly_mask o) tm) <> None ->
   convert_datetime pd tm = None ->
   main pd env w =
   (mkWorld (Some (mkFigure (12.8%float, 9.6%float) [] false))
            (trace w ++ [EvToDatetime (select (anomaly_mask o) tm);
                         EvToDatetime tm]),
    inl ValueError)).
Proof.
  intros Hread Ho Htm.
  pose proof (proj2 (getitem_inr data "output" _)
                (ex_intro _ o (conj Ho eq_refl))) as Go.
  pose proof (proj2 (getitem_inr data "Time" _)
                (ex_intro _ tm (conj Htm eq_refl))) as Gtm.
  pose proof (@getitem_mask_inr data (mkSeries (index data) o) _ _ Htm) as Atm.
  cbn [s_values] in Atm.
  split.
  - intros Hfail.
    unfold main. cbv zeta. fold (source_of (parse_args (argv env))).
    do 3 run_step.
    erewrite bind_fail; [reflexivity |].
    unfold to_datetime, log. cbn [s_values]. rewrite Hfail. reflexivity.
  - intros Hsome Hfail.
    destruct (convert_datetime pd (select (anomaly_mask o) tm)) as [ta |]
      eqn:Hta; [| contradiction].
    unfold main. cbv zeta. fold (source_of (parse_args (argv env))).
    do 6 run_step.
    erewrite bind_fail;
      [| unfold to_datetime, log; cbn [s_values gcf trace]; rewrite Hfail;
         reflexivity ].
    rewrite <- !app_assoc. reflexivity.
Qed.

(** X5.  A [value] column holding a text ends the run with a type error at
    the division by 1000: both conversions have been made and the first
    panel has been added and titled, but nothing has been plotted. *)
Theorem text_in_value_column pd env w data o tm v t ta :
  let a := parse_args (argv env) in
  read_csv pd env (source_of a) w = (w, inr data) ->
  lookup_column "output" (columns data) = Some o ->
  lookup_column "Time" (columns data) = Some tm ->
  convert_datetime pd (select (anomaly_mask o) tm) = Some ta ->
  convert_datetime pd tm = Some t ->
  lookup_column "value" (columns data) = Some v ->
  forallb is_number v = false ->
  main pd env w =
  (mkWorld
     (Some (mkFigure (12.8%float, 9.6%float)
              [mkAxes (3%nat, 1%nat, 1%nat) (name a) [] [] None None None]
              false))
     (trace w ++ [EvToDatetime (select (anomaly_mask o) tm);
                  EvToDatetime tm]),
   inl TypeError).
Proof.
  intros a Hread Ho Htm Hta Ht Hv Htext.
  pose proof (proj2 (getitem_inr data "output" _)
                (ex_intro _ o (conj Ho eq_refl))) as Go.
  pose proof (proj2 (getitem_inr data "Time" _)
                (ex_intro _ tm (conj Htm eq_refl))) as Gtm.
  pose proof (proj2 (getitem_inr data "value" _)
                (ex_intro _ v (conj Hv eq_refl))) as Gv.
  pose proof (@getitem_mask_inr data (mkSeries (index data) o) _ _ Htm) as Atm.
  cbn [s_values] in Atm.
  unfold main. cbv zeta. fold (source_of (parse_args (argv env))). fold a.
  do 10 run_step.
  erewrite bind_fail;
    [| unfold lift, series_truediv; cbn [s_values];
       rewrite (mapM_truediv_text v 1000 Htext); reflexivity ].
  rewrite <- !app_assoc. reflexivity.
Qed.

(** X6.  When every statement up to the save succeeds but the output cannot
    be written, the run ends with the OS error on the output path, an output
    write error: the figure is complete, no file is written and, even with
    [--show], nothing is shown. *)
Theorem unwritable_output pd env w data fig evs :
  let a := parse_args (argv env) in
  read_csv pd env (source_of a) w = (w, inr data) ->
  renders pd a data fig evs ->
  writable env (output a) = false ->
  main pd env w = (mkWorld (Some fig) (trace w ++ evs),
                   inl (OSError (output a))) /\
  classify (OSError (output a)) = OutputWriteError /\
  saved (trace w ++ evs) = saved (trace w) /\
  shown (trace w ++ evs) = shown (trace w).
Proof.
  intros a Hread Hrend Hwr.
  assert (Hrun : main pd env w = (mkWorld (Some fig) (trace w ++ evs),
                                  inl (OSError (output a)))).
  { destruct Hrend as [o tm v s sc t ta v' av'
                         Ho Htm Hta Ht Hv Hv' Ltv Hav' Ltav Hs Lts Ltas
                         Hsc Ltsc Ltasc].
    pose proof (proj2 (getitem_inr data "output" _)
                  (ex_intro _ o (conj Ho eq_refl))) as Go.
    pose proof (proj2 (getitem_inr data "Time" _)
                  (ex_intro _ tm (conj Htm eq_refl))) as Gtm.
    pose proof (proj2 (getitem_inr data "value" _)
                  (ex_intro _ v (conj Hv eq_refl))) as Gv.
    pose proof (proj2 (getitem_inr data "saliency" _)
                  (ex_intro _ s (conj Hs eq_refl))) as Gs.
    pose proof (proj2 (getitem_inr data "score" _)
                  (ex_intro _ sc (conj Hsc eq_refl))) as Gsc.
    pose proof (@getitem_mask_inr data (mkSeries (index data) o) _ _ Htm)
      as Atm.
    pose proof (@getitem_mask_inr data (mkSeries (index data) o) _ _ Hv)
      as Av.
    pose proof (@getitem_mask_inr data (mkSeries (index data) o) _ _ Hs)
      as As.
    pose proof (@getitem_mask_inr data (mkSeries (index data) o) _ _ Hsc)
      as Asc.
    cbn [s_values] in Atm, Av, As, Asc.
    assert (Dv : series_truediv (mkSeries (index data) v) 1000 =
                 inr (mkSeries (index data) v')).
    { apply series_truediv_inr. exists v'. split; [exact Hv' | reflexivity]. }
    assert (Dav : series_truediv
                    (mkSeries (select (anomaly_mask o) (index data))
                              (select (anomaly_mask o) v)) 1000 =
                  inr (mkSeries (select (anomaly_mask o) (index data)) av')).
    { apply series_truediv_inr. exists av'.
      split; [exact Hav' | reflexivity]. }
    unfold main. cbv zeta. fold (source_of (parse_args (argv env))). fold a.
    do 27 run_step.
    unfold threshold_lines.
    destruct (threshold a) as [y |] eqn:Eth; cbn [truthy];
      [destruct (float_truthy y) eqn:Ey |];
      cbn [forM_ app]; do 12 run_step;
      (erewrite bind_fail;
       [| unfold savefig; rewrite Hwr; reflexivity ]);
      rewrite <- !app_assoc; reflexivity. }
  split; [exact Hrun |]. split; [reflexivity |].
  exact (main_fails_clean pd env w Hrun).
Qed.

(** X7.  [main] returns exactly when the text loads, every statement between
    the load and the save succeeds on the table, and the output can be
    written; it then leaves the figure as the current one and has logged the
    two conversions, the save and, with [--show], the display. *)
Theorem main_returns_iff pd env w w' :
  let a := parse_args (argv env) in
  main pd env w = (w', inr tt) <->
  exists data fig evs,
    read_csv pd env (source_of a) w = (w, inr data) /\
    renders pd a data fig evs /\
    writable env (output a) = true /\
    w' = mkWorld (Some fig)
           (trace w ++ evs ++ EvSavefig (output a) fig ::
              (if show a then [EvShow fig] else [])).
Proof.
  intros a. split.
  - intros H. exact (main_ok pd env w H).
  - intros (data & fig & evs & Hread & Hrend & Hwr & ->).
    exact (@main_run pd env w data fig evs Hread Hrend Hwr).
Qed.

(** X8.  In the figure a successful run saves, when the conversion treats
    each cell on its own, the overlay of every panel is the panel's line cut
    by the anomaly mask, abscissas and ordinates alike: each red marker sits
    on a point of the line, the point of a row flagged 1. *)
Theorem markers_on_the_lines pd env w w' :
  elementwise (convert_datetime pd) ->
  main pd env w = (w', inr tt) ->
  let a := parse_args (argv env) in
  exists data fig o,
    read_csv pd env (source_of a) w = (w, inr data) /\
    lookup_column "output" (columns data) = Some o /\
    saved (trace w') = saved (trace w) ++ [(output a, fig)] /\
    List.length (axes fig) = 3%nat /\
    Forall (fun ax =>
              exists l mk,
                lines ax = [l; mk] /\
                style l = default_style /\
                style mk = red_markers /\
                xdata mk = select (anomaly_mask o) (xdata l) /\
                ydata mk = select (anomaly_mask o) (ydata l))
           (axes fig).
Proof.
  intros [g Hg] H a. apply run_figure in H. fold a in H.
  destruct H as (data & fig & evs & Hread & Hrend & _ & _ & Hsaved & _).
  destruct Hrend as [o tm v s sc t ta v' av'
                       Ho Htm Hta Ht Hv Hv' Ltv Hav' Ltav Hs Lts Ltas
                       Hsc Ltsc Ltasc].
  assert (Eta : ta = select (anomaly_mask o) t).
  { rewrite Hg in Hta, Ht.
    rewrite (traverse_select g (anomaly_mask o) tm Ht) in Hta.
    injection Hta as <-. reflexivity. }
  assert (Eav : av' = select (anomaly_mask o) v').
  { rewrite (mapM_select _ (anomaly_mask o) v Hv') in Hav'.
    injection Hav' as <-. reflexivity. }
  subst ta av'.
  exists data. eexists. exists o.
  split; [exact Hread |]. split; [exact Ho |]. split; [exact Hsaved |].
  split; [reflexivity |].
  repeat constructor; do 2 eexists; repeat split; reflexivity.
Qed.

(** X9.  In the figure a successful run saves, only the score panel can
    carry a horizontal line: none without a threshold, none with a threshold
    whose truth value is false (0.0 and -0.0), and otherwise exactly one,
    red and dashed, at the threshold. *)
Theorem threshold_line pd env w w' :
  main pd env w = (w', inr tt) ->
  let a := parse_args (argv env) in
  exists fig p1 p2 p3,
    saved (trace w') = saved (trace w) ++ [(output a, fig)] /\
    axes fig = [p1; p2; p3] /\
    hlines p1 = [] /\ hlines p2 = [] /\
    (threshold a = None -> hlines p3 = []) /\
    (forall y, threshold a = Some y ->
               hlines p3 = if PrimFloat.eqb y 0%float then []
                           else [mkHLine y "red" "--"]).
Proof.
  intros H a.
  destruct (score_panel_lines pd env w H)
    as (fig & p1 & p2 & p3 & Hsaved & Haxes & H1 & H2 & _ & Hnone & Hyes & Hno).
  fold a in Hsaved, Hnone, Hyes, Hno.
  exists fig, p1, p2, p3.
  repeat (split; [assumption |]).
  intros y Hy.
  destruct (PrimFloat.eqb y 0%float) eqn:E.
  - apply (Hno y Hy). unfold float_truthy. rewrite E. reflexivity.
  - apply (Hyes y Hy). unfold float_truthy. rewrite E. reflexivity.
Qed.

(** X10.  A successful run shows a figure only on request: without [--show]
    nothing is shown, with it exactly one figure is shown, the one that was
    written, and it is shown after the file was written. *)
Theorem display_only_on_request pd env w w' :
  main pd env w = (w', inr tt) ->
  let a := parse_args (argv env) in
  exists fig pre,
    saved (trace w') = saved (trace w) ++ [(output a, fig)] /\
    shown (trace w') = shown (trace w) ++ (if show a then [fig] else []) /\
    saved pre = [] /\ shown pre = [] /\
    trace w' = trace w ++ pre ++ EvSavefig (output a) fig ::
                 (if show a then [EvShow fig] else []).
Proof.
  intros H a.
  pose proof (run_figure pd env w H) as Hfig. fold a in Hfig.
  destruct Hfig as (data & fig & evs & _ & Hrend & _ & _ & Hsaved & Hshown & _).
  apply main_ok in H. fold a in H.
  destruct H as (data' & fig' & evs' & _ & Hrend' & _ & ->).
  destruct Hrend, Hrend'. unfold finished in *. cbn [trace] in *.
  rewrite !saved_app in Hsaved. cbn [saved app] in Hsaved.
  eexists. eexists.
  split; [| split; [| split; [| split; [| reflexivity]]]]; try reflexivity.
  - rewrite !saved_app. cbn [saved app].
    destruct (show a); cbn [saved]; reflexivity.
  - rewrite !shown_app. cbn [shown app].
    destruct (show a); cbn [shown]; rewrite ?app_nil_r; reflexivity.
Qed.

(** ** The command line *)

Lemma fold_set_option_last opts : forall a,
  name (fold_left set_option opts a) =
    match last_some given_name opts with
    | Some s => s
    | None => name a
    end /\
  threshold (fold_left set_option opts a) =
    match last_some given_threshold opts with
    | Some f => Some f
    | None => threshold a
    end /\
  output (fold_left set_option opts a) =
    match last_some given_output opts with
    | Some s => s
    | None => output a
    end /\
  show (fold_left set_option opts a) = show a || existsb is_show opts.
Proof.
  induction opts as [| o opts IH]; intros a; cbn [fold_left last_some existsb].
  - rewrite orb_false_r. repeat split; reflexivity.
  - destruct (IH (set_option a o)) as (Hn & Ht & Ho & Hs).
    rewrite Hn, Ht, Ho, Hs.
    destruct (last_some given_name opts), (last_some given_threshold opts),
      (last_some given_output opts);
      destruct o; cbn [set_option name threshold output show given_name
                       given_threshold given_output is_show orb];
      rewrite ?orb_true_r; repeat split; reflexivity.
Qed.

Lemma last_some_none (A : Type) (pick : cli_option -> option A) opts :
  last_some pick opts = None <-> forall o, In o opts -> pick o = None.
Proof.
  induction opts as [| o opts IH]; cbn [last_some In].
  - split; [intros _ o [] | reflexivity].
  - destruct (last_some pick opts) as [y |].
    + split; [discriminate |]. intros H.
      assert (Hy : Some y = None) by (apply IH; intros o' Hin; apply H; right; exact Hin).
      discriminate.
    + split.
      * intros Hp o' [<- | Hin]; [exact Hp |].
        apply (proj1 IH eq_refl). exact Hin.
      * intros H. apply H. left. reflexivity.
Qed.

Lemma last_some_found (A : Type) (pick : cli_option -> option A)
    before o after x :
  pick o = Some x -> (forall o', In o' after -> pick o' = None) ->
  last_some pick (before ++ o :: after) = Some x.
Proof.
  intros Hp Hafter. induction before as [| b before IH]; cbn [app last_some].
  - apply last_some_none in Hafter. rewrite Hafter. exact Hp.
  - rewrite IH. reflexivity.
Qed.

Lemma last_some_split (A : Type) (pick : cli_option -> option A) opts x :
  last_some pick opts = Some x ->
  exists before o after,
    opts = before ++ o :: after /\ pick o = Some x /\
    forall o', In o' after -> pick o' = None.
Proof.
  induction opts as [| o opts IH]; cbn [last_some]; [discriminate |].
  destruct (last_some pick opts) as [y |] eqn:E.
  - intros H. injection H as <-.
    destruct (IH eq_refl) as (before & o1 & after & -> & Hp & Hafter).
    exists (o :: before), o1, after. repeat split; assumption.
  - intros Hp. exists [], o, opts. split; [reflexivity |].
    split; [exact Hp |]. apply last_some_none. exact E.
Qed.

(** [last_some], said without recursion: it answers [x] when some option
    gives [x] and no later option gives anything, and nothing when no option
    gives anything. *)
Lemma last_some_spec (A : Type) (pick : cli_option -> option A) opts :
  (forall x, last_some pick opts = Some x <->
     exists before o after,
       opts = before ++ o :: after /\ pick o = Some x /\
       forall o', In o' after -> pick o' = None) /\
  (last_some pick opts = None <-> forall o, In o opts -> pick o = None).
Proof.
  split; [| apply last_some_none].
  intros x. split; [apply last_some_split |].
  intros (before & o & after & -> & Hp & Hafter).
  apply last_some_found; assumption.
Qed.

(** X11.  The namespace argparse hands to [main], for a command line it
    accepts: [path] is the positional argument; [name], [threshold] and
    [output] are those of the last [--name], [--threshold] and [--output]
    given, wherever the other options stand, and otherwise the defaults
    "value", none and "output.png"; [show] is set exactly when [--show] is
    given. *)
Theorem parse_args_spec (p : string) (opts : list cli_option) :
  parse_args (p, opts) =
    mkNamespace p
      (match last_some given_name opts with Some s => s | None => "value" end)
      (last_some given_threshold opts)
      (match last_some given_output opts with
       | Some s => s
       | None => "output.png"
       end)
      (existsb is_show opts) /\
  (forall s, last_some given_name opts = Some s <->
     exists before after,
       opts = before ++ OptName s :: after /\
       forall s', ~ In (OptName s') after) /\
  (forall f, last_some given_threshold opts = Some f <->
     exists before after,
       opts = before ++ OptThreshold f :: after /\
       forall f', ~ In (OptThreshold f') after) /\
  (forall s, last_some given_output opts = Some s <->
     exists before after,
       opts = before ++ OptOutput s :: after /\
       forall s', ~ In (OptOutput s') after) /\
  (last_some given_name opts = None <-> forall s, ~ In (OptName s) opts) /\
  (last_some given_threshold opts = None <->
     forall f, ~ In (OptThreshold f) opts) /\
  (last_some given_output opts = None <-> forall s, ~ In (OptOutput s) opts) /\
  (existsb is_show opts = true <-> In OptShow opts).
Proof.
  split.
  { unfold parse_args. cbn [fst snd].
    destruct (fold_set_option_last opts (defaults p)) as (Hn & Ht & Ho & Hs).
    pose proof (fold_set_option_path opts (defaults p)) as Hp.
    cbn [defaults path name threshold output show orb] in *.
    destruct (fold_left set_option opts (defaults p)) as [p' n' t' o' s'].
    cbn [path name threshold output show] in *. subst.
    destruct (last_some given_threshold opts); reflexivity. }
  assert (Hsome : forall (A : Type) (pick : cli_option -> option A)
                    (mk : A -> cli_option),
            (forall o x, pick o = Some x <-> o = mk x) ->
            forall x, last_some pick opts = Some x <->
              exists before after,
                opts = before ++ mk x :: after /\
                forall x', ~ In (mk x') after).
  { intros A pick mk Hpick x.
    rewrite (proj1 (last_some_spec pick opts) x). split.
    - intros (before & o & after & -> & Hp & Hafter).
      apply Hpick in Hp. subst o. exists before, after.
      split; [reflexivity |]. intros x' Hin.
      specialize (Hafter _ Hin).
      rewrite (proj2 (Hpick (mk x') x') eq_refl) in Hafter. discriminate.
    - intros (before & after & -> & Hafter).
      exists before, (mk x), after. split; [reflexivity |].
      split; [apply Hpick; reflexivity |].
      intros o' Hin. destruct (pick o') as [x' |] eqn:E; [| reflexivity].
      apply Hpick in E. subst o'. exfalso. exact (Hafter x' Hin). }
  assert (Hnone : forall (A : Type) (pick : cli_option -> option A)
                    (mk : A -> cli_option),
            (forall o x, pick o = Some x <-> o = mk x) ->
            last_some pick opts = None <-> forall x, ~ In (mk x) opts).
  { intros A pick mk Hpick.
    rewrite (proj2 (last_some_spec pick opts)). split.
    - intros H x Hin. specialize (H _ Hin).
      rewrite (proj2 (Hpick (mk x) x) eq_refl) in H. discriminate.
    - intros H o Hin. destruct (pick o) as [x |] eqn:E; [| reflexivity].
      apply Hpick in E. subst o. exfalso. exact (H x Hin). }
  assert (Pn : forall o x, given_name o = Some x <-> o = OptName x).
  { intros [] x; cbn [given_name]; split; intros H;
      try discriminate; injection H as ->; reflexivity. }
  assert (Pt : forall o x, given_threshold o = Some x <-> o = OptThreshold x).
  { intros [] x; cbn [given_threshold]; split; intros H;
      try discriminate; injection H as ->; reflexivity. }
  assert (Po : forall o x, given_output o = Some x <-> o = OptOutput x).
  { intros [] x; cbn [given_output]; split; intros H;
      try discriminate; injection H as ->; reflexivity. }
  split; [exact (Hsome _ _ _ Pn) |].
  split; [exact (Hsome _ _ _ Pt) |].
  split; [exact (Hsome _ _ _ Po) |].
  split; [exact (Hnone _ _ _ Pn) |].
  split; [exact (Hnone _ _ _ Pt) |].
  split; [exact (Hnone _ _ _ Po) |].
  rewrite existsb_exists. split.
  - intros (o & Hin & Ho). destruct o; try discriminate. exact Hin.
  - intros Hin. exists OptShow. split; [exact Hin | reflexivity].
Qed.

(** ** The theorems at concrete inputs *)

Lemma sample_elementwise : elementwise (convert_datetime Sample.pandas).
Proof. exists Sample.convert_cell. intros l. reflexivity. Defined.

Lemma sample_valid_two_rows : valid_table Sample.pandas Sample.frame_two_rows.
Proof.
  split; [repeat constructor |].
  do 6 eexists. repeat split; reflexivity.
Defined.

Lemma sample_valid_no_anomaly :
  valid_table Sample.pandas Sample.frame_no_anomaly.
Proof.
  split; [repeat constructor |].
  do 6 eexists. repeat split; reflexivity.
Defined.

Lemma anomaly_subset_witness :
  wf_frame Sample.frame_two_rows /\
  List.length
    (index (getitem_mask Sample.frame_two_rows
              (series_eq (mkSeries [0; 1] [CInt 0; CInt 1]) 1))) = 1%nat.
Proof.
  assert (Hwf : wf_frame Sample.frame_two_rows) by (repeat constructor).
  split; [exact Hwf |].
  destruct (@anomaly_subset Sample.frame_two_rows
              (mkSeries [0; 1] [CInt 0; CInt 1]) Hwf eq_refl)
    as (_ & H & _).
  exact H.
Defined.

Lemma value_panel_scaled_witness :
  let env := Sample.env_file "two.csv" [] in
  let w' := fst (main Sample.pandas env start) in
  main Sample.pandas env start = (w', inr tt) /\
  exists fig p1 p2 p3,
    saved (trace w') = [("output.png", fig)] /\
    axes fig = [p1; p2; p3] /\
    lines p1 =
      [mkLine [1704067200000000000; 1704070800000000000]
              [CFloat 1; CFloat 2] default_style;
       mkLine [1704070800000000000] [CFloat 2] red_markers].
Proof.
  intros env w'.
  assert (H : main Sample.pandas env start = (w', inr tt))
    by (vm_compute; reflexivity).
  split; [exact H |].
  destruct (@value_panel_scaled Sample.pandas env start w' H)
    as (data & fig & p1 & p2 & p3 & o & tm & v & s & sc & t & ta & y & ya
        & Hread & Hsaved & Haxes & Ho & Htm & Hv & _ & _ & Ht & Hta & Hl1
        & Hy & Hya & _).
  vm_compute in Hread. injection Hread as <-.
  vm_compute in Ho. injection Ho as <-.
  vm_compute in Htm. injection Htm as <-.
  vm_compute in Hv. injection Hv as <-.
  vm_compute in Ht. injection Ht as <-.
  vm_compute in Hta. injection Hta as <-.
  exists fig, p1, p2, p3.
  split; [exact Hsaved |]. split; [exact Haxes |].
  rewrite Hl1.
  cbn [anomaly_mask map select cell_eq Z.eqb] in Hya.
  inversion Hy as [| c1 r1 l1 l1' E1 Hy1]; subst.
  inversion Hy1 as [| c2 r2 l2 l2' E2 Hy2]; subst.
  inversion Hy2; subst.
  inversion Hya as [| c3 r3 l3 l3' E3 Hya1]; subst.
  inversion Hya1; subst.
  vm_compute in E1. injection E1 as <-.
  vm_compute in E2. injection E2 as <-.
  vm_compute in E3. injection E3 as <-.
  reflexivity.
Defined.

Lemma three_panels_witness :
  let env := Sample.env_file "two.csv" [] in
  let w' := fst (main Sample.pandas env start) in
  main Sample.pandas env start = (w', inr tt) /\
  exists fig,
    saved (trace w') = [("output.png", fig)] /\
    map title (axes fig) = ["value"; "Saliency Map"; "Score"].
Proof.
  intros env w'.
  assert (H : main Sample.pandas env start = (w', inr tt))
    by (vm_compute; reflexivity).
  split; [exact H |].
  destruct (@three_panels Sample.pandas env start w' H)
    as (fig & Hsaved & _ & _ & Htitles & _).
  exists fig. split; [exact Hsaved | exact Htitles].
Defined.

Lemma shared_time_axis_witness :
  let env := Sample.env_file "two.csv" [] in
  let w' := fst (main Sample.pandas env start) in
  main Sample.pandas env start = (w', inr tt) /\
  exists fig,
    saved (trace w') = [("output.png", fig)] /\
    autofmt fig = true.
Proof.
  intros env w'.
  assert (H : main Sample.pandas env start = (w', inr tt))
    by (vm_compute; reflexivity).
  split; [exact H |].
  destruct (@shared_time_axis Sample.pandas env start w' H)
    as (fig & Hsaved & _ & _ & Hauto & _).
  exists fig. split; [exact Hsaved | exact Hauto].
Defined.




Lemma show_only_adds_display_witness :
  let e0 := Sample.env_file "two.csv" [OptOutput "a.png"] in
  let e1 := Sample.env_file "two.csv" [OptOutput "a.png"; OptShow] in
  show (parse_args (argv e0)) = false /\
  show (parse_args (argv e1)) = true /\
  snd (main Sample.pandas e1 start) = snd (main Sample.pandas e0 start) /\
  saved (trace (fst (main Sample.pandas e1 start))) =
    saved (trace (fst (main Sample.pandas e0 start))).
Proof.
  intros e0 e1.
  split; [reflexivity |]. split; [reflexivity |].
  destruct (@show_only_adds_display Sample.pandas e0 e1 start
              eq_refl eq_refl eq_refl eq_refl eq_refl eq_refl eq_refl
              eq_refl eq_refl)
    as (Hres & Hsaved & _).
  split; [exact Hres | exact Hsaved].
Defined.

Lemma no_anomaly_run_witness :
  let env := Sample.env_file "quiet.csv" [] in
  valid_table Sample.pandas Sample.frame_no_anomaly /\
  (forall c, In c [CFloat 0; CFloat 2; CFloat nan] -> cell_eq c 1 = false) /\
  exists w' fig,
    main Sample.pandas env start = (w', inr tt) /\
    saved (trace w') = [("output.png", fig)].
Proof.
  intros env.
  assert (Hnone : forall c, In c [CFloat 0; CFloat 2; CFloat nan] ->
                            cell_eq c 1 = false).
  { intros c [<- | [<- | [<- | []]]]; reflexivity. }
  split; [exact sample_valid_no_anomaly |]. split; [exact Hnone |].
  destruct (@no_anomaly_run Sample.pandas env start Sample.frame_no_anomaly
              [CFloat 0; CFloat 2; CFloat nan]
              eq_refl sample_valid_no_anomaly eq_refl Hnone eq_refl eq_refl)
    as (w' & fig & Hrun & _ & _ & Hsaved & _).
  exists w', fig. split; [exact Hrun | exact Hsaved].
Defined.

Lemma failed_run_writes_nothing_witness :
  let env := Sample.env_file "noscore.csv" [] in
  let w' := fst (main Sample.pandas env start) in
  main Sample.pandas env start = (w', inl (KeyError "score")) /\
  saved (trace w') = [].
Proof.
  intros env w'.
  assert (H : main Sample.pandas env start = (w', inl (KeyError "score")))
    by (vm_compute; reflexivity).
  split; [exact H |].
  destruct (@failed_run_writes_nothing Sample.pandas env start w' _ H)
    as (Hsaved & _).
  exact Hsaved.
Defined.

Lemma load_failure_witness :
  let env := Sample.env_file "missing.csv" [] in
  read_csv Sample.pandas env (source_of (parse_args (argv env))) start =
    (start, inl (FileNotFoundError "missing.csv")) /\
  main Sample.pandas env start =
    (start, inl (FileNotFoundError "missing.csv")).
Proof.
  intros env.
  assert (H : read_csv Sample.pandas env
                (source_of (parse_args (argv env))) start =
              (start, inl (FileNotFoundError "missing.csv")))
    by reflexivity.
  split; [exact H |].
  destruct (@load_failure Sample.pandas env start _ H) as (Hrun & _).
  exact Hrun.
Defined.

Lemma missing_flag_or_time_witness :
  let pd := Sample.constant_pandas Sample.frame_no_flag in
  let env := Sample.env_stdin "" [] in
  read_csv pd env (source_of (parse_args (argv env))) start =
    (start, inr Sample.frame_no_flag) /\
  main pd env start = (start, inl (KeyError "output")).
Proof.
  intros pd env.
  assert (H : read_csv pd env (source_of (parse_args (argv env))) start =
              (start, inr Sample.frame_no_flag)) by reflexivity.
  split; [exact H |].
  destruct (@missing_flag_or_time pd env start Sample.frame_no_flag H)
    as (Hflag & _).
  exact (Hflag eq_refl).
Defined.

Lemma time_conversion_failure_witness :
  let pd := Sample.constant_pandas Sample.frame_bad_time in
  let env := Sample.env_stdin "" [] in
  read_csv pd env (source_of (parse_args (argv env))) start =
    (start, inr Sample.frame_bad_time) /\
  main pd env start =
    (mkWorld None [EvToDatetime [CStr "yesterday"]], inl ValueError).
Proof.
  intros pd env.
  assert (H : read_csv pd env (source_of (parse_args (argv env))) start =
              (start, inr Sample.frame_bad_time)) by reflexivity.
  split; [exact H |].
  destruct (@time_conversion_failure pd env start Sample.frame_bad_time
              [CInt 1; CInt 0]
              [CStr "yesterday"; CStr "2024-01-01T01:00:00"]
              H eq_refl eq_refl) as (Hsub & _).
  exact (Hsub eq_refl).
Defined.

Lemma text_in_value_column_witness :
  let pd := Sample.constant_pandas Sample.frame_text_value in
  let env := Sample.env_stdin "" [] in
  forallb is_number [CInt 1000; CStr "n/a"] = false /\
  snd (main pd env start) = inl TypeError.
Proof.
  intros pd env.
  split; [reflexivity |].
  rewrite (@text_in_value_column pd env start Sample.frame_text_value
             [CInt 0; CInt 1]
             [CStr "2024-01-01T00:00:00"; CStr "2024-01-01T01:00:00"]
             [CInt 1000; CStr "n/a"]
             [1704067200000000000; 1704070800000000000]
             [1704070800000000000]
             eq_refl eq_refl eq_refl eq_refl eq_refl eq_refl eq_refl).
  reflexivity.
Defined.

Lemma unwritable_output_witness :
  let env := Sample.env_file "two.csv" [OptOutput "/proc/plot.png"; OptShow] in
  writable env (output (parse_args (argv env))) = false /\
  exists w',
    main Sample.pandas env start = (w', inl (OSError "/proc/plot.png")) /\
    saved (trace w') = [] /\ shown (trace w') = [].
Proof.
  intros env.
  assert (Hwr : writable env (output (parse_args (argv env))) = false)
    by reflexivity.
  split; [exact Hwr |].
  destruct (valid_renders (parse_args (argv env)) sample_elementwise
              sample_valid_two_rows) as (fig & evs & Hrend).
  destruct (@unwritable_output Sample.pandas env start Sample.frame_two_rows
              fig evs eq_refl Hrend Hwr) as (Hrun & _ & Hsaved & Hshown).
  eexists. split; [exact Hrun |]. split; [exact Hsaved | exact Hshown].
Defined.

Lemma markers_on_the_lines_witness :
  let env := Sample.env_file "two.csv" [] in
  let w' := fst (main Sample.pandas env start) in
  elementwise (convert_datetime Sample.pandas) /\
  main Sample.pandas env start = (w', inr tt) /\
  exists fig,
    saved (trace w') = [("output.png", fig)] /\
    List.length (axes fig) = 3%nat.
Proof.
  intros env w'.
  assert (H : main Sample.pandas env start = (w', inr tt))
    by (vm_compute; reflexivity).
  split; [exact sample_elementwise |]. split; [exact H |].
  destruct (@markers_on_the_lines Sample.pandas env start w'
              sample_elementwise H)
    as (data & fig & o & _ & _ & Hsaved & Hlen & _).
  exists fig. split; [exact Hsaved | exact Hlen].
Defined.

Lemma threshold_line_witness :
  let env := Sample.env_file "two.csv" [OptThreshold 0.9%float] in
  let w' := fst (main Sample.pandas env start) in
  main Sample.pandas env start = (w', inr tt) /\
  exists fig p1 p2 p3,
    saved (trace w') = [("output.png", fig)] /\
    axes fig = [p1; p2; p3] /\
    hlines p3 = [mkHLine 0.9%float "red" "--"].
Proof.
  intros env w'.
  assert (H : main Sample.pandas env start = (w', inr tt))
    by (vm_compute; reflexivity).
  split; [exact H |].
  destruct (@threshold_line Sample.pandas env start w' H)
    as (fig & p1 & p2 & p3 & Hsaved & Haxes & _ & _ & _ & Hline).
  exists fig, p1, p2, p3.
  split; [exact Hsaved |]. split; [exact Haxes |].
  exact (Hline 0.9%float eq_refl).
Defined.

Lemma display_only_on_request_witness :
  let env := Sample.env_file "two.csv" [OptShow] in
  let w' := fst (main Sample.pandas env start) in
  main Sample.pandas env start = (w', inr tt) /\
  exists fig,
    saved (trace w') = [("output.png", fig)] /\
    shown (trace w') = [fig].
Proof.
  intros env w'.
  assert (H : main Sample.pandas env start = (w', inr tt))
    by (vm_compute; reflexivity).
  split; [exact H |].
  destruct (@display_only_on_request Sample.pandas env start w' H)
    as (fig & pre & Hsaved & Hshown & _).
  exists fig. split; [exact Hsaved | exact Hshown].
Defined.
